(** * GW3099-2024: the XT3D unstructured-grid exercise and the SLURM batch job

    A shallow embedding of the two source files of the repository:

    - [exercises/xt3d/xt3d-ex0-unstructured-grid.ipynb]: the helper
      functions [hgrad], [add_chds], [build_sim], [plot_results] and the
      notebook cells that call them;
    - [data/parallel/slurm.batch]: the batch script, kept as the text of
      its lines and read the way the scheduler and the shell read it.

    Python floats are modelled by the real numbers: what is proved of
    [Xt3d.hgrad], [Xt3d.add_chds] and [Xt3d.heada] is proved of the
    formulas over exact real arithmetic.  Module [Binary64] holds the
    same arithmetic on binary64 values, for the statements that are made
    of the running code.  Python integers are modelled by [Z], Python
    exceptions by [None]. *)

From Stdlib Require Import Reals Lra Lia ZArith List String Ascii Bool.
From Stdlib Require Floats.PrimFloat.
Import ListNotations.

(** ** Python's fallible operations *)

Module Py.

Definition bind {A B : Type} (m : option A) (f : A -> option B) : option B :=
  match m with
  | Some a => f a
  | None => None
  end.

(** Float division: [a / b] raises [ZeroDivisionError] when [b] is zero.
    Over exact real arithmetic: the divisor is a real number here, and is
    zero when the exact value is. *)
Definition div (a b : R) : option R :=
  if Req_dec_T b 0%R then None else Some (a / b)%R.

(** Arithmetic on an argument whose default is [None] raises
    [TypeError]; [num] reads such an argument as a number. *)
Definition num (x : option R) : option R := x.

End Py.

Notation "x <- m ;; f" := (Py.bind m (fun x => f))
  (at level 61, m at next level, right associativity).

(** ** The notebook: head gradient for an anisotropic conductivity *)

Module Xt3d.

Local Open Scope string_scope.
Local Open Scope list_scope.
Local Open Scope R_scope.

(** The conductivity tensor in (x, y) coordinates, as [hgrad] computes
    it from K, K22 and ANGLE1 (degrees). *)
Definition angle_of (angle1 : R) : R := angle1 * PI / 180.

Definition kxx_of (k k22 angle1 : R) : R :=
  k * cos (angle_of angle1) ^ 2 + k22 * sin (angle_of angle1) ^ 2.

Definition kyy_of (k k22 angle1 : R) : R :=
  k * sin (angle_of angle1) ^ 2 + k22 * cos (angle_of angle1) ^ 2.

Definition kxy_of (k k22 angle1 : R) : R :=
  (k - k22) * sin (angle_of angle1) * cos (angle_of angle1).

Definition det_of (k k22 angle1 : R) : R :=
  let kxx := kxx_of k k22 angle1 in
  let kyy := kyy_of k k22 angle1 in
  let kxy := kxy_of k k22 angle1 in
  let kyx := kxy in
  kxx * kyy - kxy * kyx.

(** [def hgrad(k, k22, angle1, qx, qy)], over exact real arithmetic;
    [Binary64.hgrad] is the same function on binary64 values. *)
Definition hgrad (k k22 angle1 qx qy : R) : option (R * R) :=
  let angle := angle1 * PI / 180 in
  let kxx := k * cos angle ^ 2 + k22 * sin angle ^ 2 in
  let kyy := k * sin angle ^ 2 + k22 * cos angle ^ 2 in
  let kxy := (k - k22) * sin angle * cos angle in
  let kyx := kxy in
  let det := kxx * kyy - kxy * kyx in
  kinvxx <- Py.div kyy det ;;
  kinvxy <- Py.div (- kxy) det ;;
  kinvyx <- Py.div (- kyx) det ;;
  kinvyy <- Py.div kxx det ;;
  let hgradx := - kinvxx * qx - kinvxy * qy in
  let hgrady := - kinvyx * qx - kinvyy * qy in
  Some (hgradx, hgrady).

(** Darcy's Law [q = - K grad h], written out in two dimensions. *)
Definition darcy (k k22 angle1 qx qy : R) (g : R * R) : Prop :=
  qx = - (kxx_of k k22 angle1 * fst g + kxy_of k k22 angle1 * snd g) /\
  qy = - (kxy_of k k22 angle1 * fst g + kyy_of k k22 angle1 * snd g).

(** *** numpy arrays, as nested lists *)

Definition np_ones (n : Z) : list R := repeat 1 (Z.to_nat n).

Definition np_zeros2 (shape : Z * Z) : list (list R) :=
  repeat (repeat 0 (Z.to_nat (snd shape))) (Z.to_nat (fst shape)).

Definition np_ones3 (shape : Z * Z * Z) : list (list (list R)) :=
  let '(n0, n1, n2) := shape in
  repeat (repeat (repeat 1 (Z.to_nat n2)) (Z.to_nat n1)) (Z.to_nat n0).

Definition scale (c : R) (a : list R) : list R := map (Rmult c) a.

Definition scale3 (c : R) (a : list (list (list R))) : list (list (list R)) :=
  map (map (map (Rmult c))) a.

(** [a[lo:hi] = ...] along one axis: [f] is applied at the indices
    [lo <= i < hi], the other entries are kept. *)
Fixpoint on_slice_from {A : Type} (i lo hi : nat) (f : A -> A) (a : list A)
  : list A :=
  match a with
  | [] => []
  | x :: t =>
      (if (lo <=? i)%nat && (i <? hi)%nat then f x else x)
        :: on_slice_from (S i) lo hi f t
  end.

Definition on_slice {A : Type} (lo hi : nat) (f : A -> A) (a : list A) : list A :=
  on_slice_from 0 lo hi f a.

Fixpoint zip3 {A B C : Type} (a : list A) (b : list B) (c : list C)
  : list (A * B * C) :=
  match a, b, c with
  | x :: a', y :: b', z :: c' => (x, y, z) :: zip3 a' b' c'
  | _, _, _ => []
  end.

Fixpoint enumerate_from {A : Type} (n : Z) (l : list A) : list (Z * A) :=
  match l with
  | [] => []
  | x :: t => (n, x) :: enumerate_from (n + 1) t
  end.

Definition enumerate {A : Type} (l : list A) : list (Z * A) := enumerate_from 0 l.

(** *** The notebook's parameter cells *)

Definition example_name : string := "xt3d-ex0-unstructured-grid".
Definition sim_ws : string := example_name.

Definition length_units : string := "meters".
Definition time_units : string := "days".
Definition strt : R := 0.
Definition icelltype : Z := 0.
Definition k11 : R := 1.

Definition nper : Z := 1.
Definition perlen : list R := [1].
Definition nstp : list Z := [1%Z].
Definition tsmult : list R := [1; 1; 1].
Definition tdis_ds : list (R * Z * R) := zip3 perlen nstp tsmult.

Definition nouter : Z := 50.
Definition ninner : Z := 100.
Definition hclose : R := 1e-9.
Definition rclose : R := 1e-6.

Definition sim_name : string := example_name.
Definition model_name : string := "gwf".

(** The outer-grid cell and the inner-grid cell assign the same names
    ([nlay], [nrow], [ncol], [delr], [delc], [tp], [bt], [idomain]) one
    after the other; each cell has its own name space here.  [top] and
    [botm] are assigned by the outer-grid cell only. *)
Module Outer.
Definition nlay : Z := 1.
Definition ncol : Z := 7.
Definition nrow : Z := ncol.
Definition top : R := 0.
Definition botm : R := -100.
Definition delr : list R := scale 100 (np_ones ncol).
Definition delc : list R := scale 100 (np_ones nrow).
Definition tp : list (list R) := np_zeros2 (nrow, ncol).
Definition bt : list (list (list R)) := scale3 (-100) (np_ones3 (nlay, nrow, ncol)).
(** [idomain = np.ones(...)]; [idomain[:, 2:5, 2:5] = 0] *)
Definition idomain : list (list (list R)) :=
  map (on_slice 2 5 (on_slice 2 5 (fun _ => 0))) (np_ones3 (nlay, nrow, ncol)).
End Outer.

Module Inner.
Definition nlay : Z := 1.
Definition ncol : Z := 9.
Definition nrow : Z := ncol.
Definition delr : list R := scale (100 / 3) (np_ones ncol).
Definition delc : list R := scale (100 / 3) (np_ones nrow).
Definition tp : list (list R) := np_zeros2 (nrow, ncol).
Definition bt : list (list (list R)) := scale3 (-100) (np_ones3 (nlay, nrow, ncol)).
Definition idomain : list (list (list R)) := np_ones3 (nlay, nrow, ncol).
End Inner.

(** The values of [nlay], [top] and [botm] that [build_sim] reads: the
    last assignment of each name. *)
Definition nlay : Z := Inner.nlay.
Definition top : R := Outer.top.
Definition botm : R := Outer.botm.

(** *** Library objects

    An object of the wrapper library is the record of the arguments it
    was built from. *)

Record StructuredGrid : Type := mkStructuredGrid {
  sg_delr : list R;
  sg_delc : list R;
  sg_top : list (list R);
  sg_botm : list (list (list R));
  sg_xoff : option R;
  sg_yoff : option R;
  sg_idomain : list (list (list R))
}.

Record Npf : Type := mkNpf {
  npf_icelltype : Z;
  npf_k : R;
  npf_save_specific_discharge : bool;
  npf_xt3doptions : option string;
  npf_k22 : option R;
  npf_angle1 : option R
}.

(** One record of a CHD stress period: [[layer, cell, head]]. *)
Definition ChdRec : Type := (Z * Z * R)%type.

Section Library.

(** The merged mesh description is computed by the library; its type
    and the function that computes it are kept abstract. *)
Variable GridProps : Type.
Variable gridlist_to_disv_gridprops : list StructuredGrid -> GridProps.

Inductive Package : Type :=
| ModflowTdis (nper : Z) (perioddata : list (R * Z * R)) (time_units : string)
| ModflowIms (linear_acceleration : string) (outer_maximum : Z)
    (outer_dvclose : R) (inner_maximum : Z) (inner_dvclose : R)
    (rcloserecord : R * string)
| ModflowGwfdisv (length_units : string) (nlay : Z) (top botm : R)
    (gridprops : GridProps)
| ModflowGwfnpf (npf : Npf)
| ModflowGwfic (strt : R)
| ModflowGwfchd (stress_period_data : list (Z * list ChdRec))
    (pname filename : string)
| ModflowGwfoc (head_filerecord budget_filerecord : string)
    (saverecord : list (string * string)).

Record ModflowGwf : Type := mkGwf {
  modelname : string;
  save_flows : bool;
  packages : list Package
}.

Record MFSimulation : Type := mkSim {
  simulation_name : string;
  simulation_ws : string;
  exe_name : string;
  sim_packages : list Package;
  models : list ModflowGwf
}.

Definition add_package (gwf : ModflowGwf) (p : Package) : ModflowGwf :=
  mkGwf (modelname gwf) (save_flows gwf) (packages gwf ++ [p]).

Definition register_package (sim : MFSimulation) (p : Package) : MFSimulation :=
  mkSim (simulation_name sim) (simulation_ws sim) (exe_name sim)
    (sim_packages sim ++ [p]) (models sim).

Definition register_model (sim : MFSimulation) (gwf : ModflowGwf) : MFSimulation :=
  mkSim (simulation_name sim) (simulation_ws sim) (exe_name sim)
    (sim_packages sim) (models sim ++ [gwf]).

(** [sim.get_model(name)] *)
Definition get_model (sim : MFSimulation) (name : string) : option ModflowGwf :=
  find (fun m => String.eqb (modelname m) name) (models sim).

(** *** [add_chds] *)

Definition left_cells : list Z := [0; 7; 14; 18; 22; 26; 33]%Z.
Definition right_cells : list Z := [6; 13; 17; 21; 25; 32; 39]%Z.
Definition top_cells : list Z := [1; 2; 3; 4; 5]%Z.
Definition bottom_cells : list Z := [34; 35; 36; 37; 38]%Z.

(** The heads below are computed over exact real arithmetic; cells and
    coordinates are integers. *)

(** The four loops of the anisotropic branch: the hardwired cell-centre
    coordinates of the [irow]-th (or [jcol]-th) cell of a side. *)
Definition left_xy (irow : Z) : R * R := (50, IZR ((6 - irow) * 100 + 50)).
Definition right_xy (irow : Z) : R * R := (650, IZR ((6 - irow) * 100 + 50)).
Definition top_xy (jcol : Z) : R * R := (IZR (jcol * 100 + 150), 650).
Definition bottom_xy (jcol : Z) : R * R := (IZR (jcol * 100 + 150), 50).

Definition chd_loop (hgradx hgrady hconst : R) (xy : Z -> R * R)
    (cells : list Z) : list ChdRec :=
  map (fun '(n, i) =>
         let x := fst (xy n) in
         let y := snd (xy n) in
         let head := hgradx * x + hgrady * y - hconst in
         (0%Z, i, head))
      (enumerate cells).

(** The body of [add_chds]: the CHD packages the call creates, in order.
    The base branch is taken when [hgradx is None]; in the other branch
    [hgrady * 50] raises [TypeError] when [hgrady] is [None]. *)
Definition chd_packages (hgradx hgrady : option R) : option (list Package) :=
  match hgradx with
  | None =>
      let chd_spd := map (fun i => (0%Z, i, 1)) left_cells in
      let left := ModflowGwfchd [(0%Z, chd_spd)] "CHD-LEFT"
                    (model_name ++ ".left.chd")%string in
      let chd_spd := map (fun i => (0%Z, i, 0)) right_cells in
      let right := ModflowGwfchd [(0%Z, chd_spd)] "CHD-RIGHT"
                     (model_name ++ ".right.chd")%string in
      Some [left; right]
  | Some hgradx =>
      hgrady <- Py.num hgrady ;;
      let hconst := hgradx * 50 + hgrady * 50 - 1 in
      let chd_spd := chd_loop hgradx hgrady hconst left_xy left_cells in
      let left := ModflowGwfchd [(0%Z, chd_spd)] "CHD-LEFT"
                    (model_name ++ ".left.chd")%string in
      let chd_spd := chd_loop hgradx hgrady hconst right_xy right_cells in
      let right := ModflowGwfchd [(0%Z, chd_spd)] "CHD-RIGHT"
                     (model_name ++ ".right.chd")%string in
      let chd_spd := chd_loop hgradx hgrady hconst top_xy top_cells in
      let top := ModflowGwfchd [(0%Z, chd_spd)] "CHD-TOP"
                   (model_name ++ ".top.chd")%string in
      let chd_spd := chd_loop hgradx hgrady hconst bottom_xy bottom_cells in
      let bottom := ModflowGwfchd [(0%Z, chd_spd)] "CHD-BOTTOM"
                      (model_name ++ ".bottom.chd")%string in
      Some [left; right; top; bottom]
  end.

(** [def add_chds(gwf, hgradx=None, hgrady=None)]: each package is
    attached to [gwf] as it is created. *)
Definition add_chds (gwf : ModflowGwf) (hgradx hgrady : option R)
  : option ModflowGwf :=
  chds <- chd_packages hgradx hgrady ;;
  Some (fold_left add_package chds gwf).

(** *** [build_sim]

    The function reads the globals [gridprops] and [xt3doptions] when
    it is called; they are arguments here. *)
Definition build_sim (gridprops : GridProps) (xt3doptions : option string)
    (hgradx hgrady : option R) : option MFSimulation :=
  let sim := mkSim sim_name sim_ws "mf6" [] [] in
  let sim := register_package sim (ModflowTdis nper tdis_ds time_units) in
  let sim := register_package sim
               (ModflowIms "bicgstab" nouter hclose ninner hclose
                  (rclose, "strict")) in
  let gwf := mkGwf model_name true [] in
  let gwf := add_package gwf
               (ModflowGwfdisv length_units nlay top botm gridprops) in
  let gwf := add_package gwf
               (ModflowGwfnpf (mkNpf icelltype k11 true xt3doptions None None)) in
  let gwf := add_package gwf (ModflowGwfic strt) in
  gwf <- add_chds gwf hgradx hgrady ;;
  let head_filerecord := (model_name ++ ".hds")%string in
  let budget_filerecord := (model_name ++ ".cbc")%string in
  let gwf := add_package gwf
               (ModflowGwfoc head_filerecord budget_filerecord
                  [("HEAD", "ALL"); ("BUDGET", "ALL")]) in
  Some (register_model sim gwf).

(** *** [plot_results]: the analytic head of the error plot *)
Definition heada (hgradx hgrady : option R) : option (R -> R -> R) :=
  match hgradx with
  | None =>
      let slp := (1 - 0) / (50 - 650) in
      Some (fun x _ => let x := x - 50 in slp * x + 1)
  | Some hgradx =>
      hgrady <- Py.num hgrady ;;
      let hconst := hgradx * 50 + hgrady * 50 - 1 in
      Some (fun x y => hgradx * x + hgrady * y - hconst)
  end.

(** *** The notebook cells, in order

    The calls that leave the notebook (grid construction, mesh merge,
    writing and running the simulation, plotting) are recorded in a
    log; an exception ends the run. *)

Inductive Event : Type :=
| StructuredGrid_call (grid : StructuredGrid)
| gridlist_to_disv_gridprops_call (gridlist : list StructuredGrid)
| plot_grid_call (gwf : ModflowGwf)
| npf_write_call (npf : Npf)
| write_simulation_call (sim : MFSimulation)
| run_simulation_call (sim : MFSimulation)
| plot_results_call (hgradx hgrady : option R)
| Mf6ListBudget_call (path : string).

Definition M (A : Type) : Type := list Event -> option (A * list Event).

Definition ret {A : Type} (a : A) : M A := fun log => Some (a, log).

Definition mbind {A B : Type} (m : M A) (f : A -> M B) : M B :=
  fun log =>
    match m log with
    | Some (a, log') => f a log'
    | None => None
    end.

Definition call (e : Event) : M unit := fun log => Some (tt, log ++ [e]).

Definition lift {A : Type} (o : option A) : M A :=
  fun log =>
    match o with
    | Some a => Some (a, log)
    | None => None
    end.

Notation "x <~ m ;; f" := (mbind m (fun x => f))
  (at level 61, m at next level, right associativity).
Notation "m ;;; f" := (mbind m (fun _ => f))
  (at level 61, right associativity).

Definition new_StructuredGrid (delr delc : list R) (top : list (list R))
    (botm : list (list (list R))) (xoff yoff : option R)
    (idomain : list (list (list R))) : M StructuredGrid :=
  let grid := mkStructuredGrid delr delc top botm xoff yoff idomain in
  call (StructuredGrid_call grid) ;;; ret grid.

Definition merge_grids (gridlist : list StructuredGrid) : M GridProps :=
  call (gridlist_to_disv_gridprops_call gridlist) ;;;
  ret (gridlist_to_disv_gridprops gridlist).

(** [gwf.npf]: the NPF package of a model. *)
Definition get_npf (gwf : ModflowGwf) : option Npf :=
  match flat_map (fun p => match p with
                           | ModflowGwfnpf npf => [npf]
                           | _ => []
                           end) (packages gwf) with
  | npf :: _ => Some npf
  | [] => None
  end.

(** [gwf.npf.<attribute> = ...]: [gwf] is the model of [sim] named
    [model_name], so the assignment shows in [sim]. *)
Definition set_npf (f : Npf -> Npf) (sim : MFSimulation) : MFSimulation :=
  let upd_pkg p := match p with
                   | ModflowGwfnpf npf => ModflowGwfnpf (f npf)
                   | _ => p
                   end in
  let upd_gwf gwf :=
    if String.eqb (modelname gwf) model_name
    then mkGwf (modelname gwf) (save_flows gwf) (map upd_pkg (packages gwf))
    else gwf in
  mkSim (simulation_name sim) (simulation_ws sim) (exe_name sim)
    (sim_packages sim) (map upd_gwf (models sim)).

Definition plot_results (hgradx hgrady : option R) : M unit :=
  _ <~ lift (heada hgradx hgrady) ;;
  call (plot_results_call hgradx hgrady).

(** Cells "Outer grid" to the merge of the two grids. *)
Definition build_grids : M (StructuredGrid * StructuredGrid * GridProps) :=
  sg1 <~ new_StructuredGrid Outer.delr Outer.delc Outer.tp Outer.bt
           None None Outer.idomain ;;
  sg2 <~ new_StructuredGrid Inner.delr Inner.delc Inner.tp Inner.bt
           (Some 200) (Some 200) Inner.idomain ;;
  gridprops <~ merge_grids [sg1; sg2] ;;
  ret (sg1, sg2, gridprops).

(** Exercise A: plot the grid of the model. *)
Definition exercise_A (sim : MFSimulation) : M unit :=
  gwf <~ lift (get_model sim model_name) ;;
  call (plot_grid_call gwf).

(** Exercises B and C: set [xt3doptions] of the NPF package, write,
    run, plot and read the budget. *)
Definition exercise_BC (xt3d : string) (sim : MFSimulation) : M MFSimulation :=
  let sim := set_npf (fun npf =>
               mkNpf (npf_icelltype npf) (npf_k npf)
                 (npf_save_specific_discharge npf) (Some xt3d)
                 (npf_k22 npf) (npf_angle1 npf)) sim in
  gwf <~ lift (get_model sim model_name) ;;
  npf <~ lift (get_npf gwf) ;;
  call (npf_write_call npf) ;;;
  call (write_simulation_call sim) ;;;
  call (run_simulation_call sim) ;;;
  plot_results None None ;;;
  call (Mf6ListBudget_call (sim_ws ++ "/" ++ "gwf.lst")%string) ;;;
  ret sim.

(** Exercise D: the anisotropic case.  The assignments to [gwf.npf] act
    on the model inside the new [sim], which is looked up again to write
    its NPF package. *)
Definition exercise_D (gridprops : GridProps)
  : M (MFSimulation * R * R) :=
  let k := k11 in
  let k22 := 0.1 * k in
  let angle1 := 45 in
  let qx := 1 / 600 in
  let qy := 0 in
  let xt3doptions := Some "xt3d" in
  g <~ lift (hgrad k k22 angle1 qx qy) ;;
  let hgradx := fst g in
  let hgrady := snd g in
  sim <~ lift (build_sim gridprops xt3doptions (Some hgradx) (Some hgrady)) ;;
  call (write_simulation_call sim) ;;;
  let sim := set_npf (fun npf =>
               mkNpf (npf_icelltype npf) k
                 (npf_save_specific_discharge npf) xt3doptions
                 (Some k22) (Some angle1)) sim in
  gwf <~ lift (get_model sim model_name) ;;
  npf <~ lift (get_npf gwf) ;;
  call (npf_write_call npf) ;;;
  call (run_simulation_call sim) ;;;
  plot_results (Some hgradx) (Some hgrady) ;;;
  ret (sim, hgradx, hgrady).

(** The names the notebook has bound when its last cell has run. *)
Record Globals : Type := mkGlobals {
  sg1 : StructuredGrid;
  sg2 : StructuredGrid;
  gridprops : GridProps;
  sim_base : MFSimulation;
  sim : MFSimulation;
  hgradx : R;
  hgrady : R
}.

Definition notebook : M Globals :=
  grids <~ build_grids ;;
  let '(sg1, sg2, gridprops) := grids in
  let xt3doptions := None in
  sim <~ lift (build_sim gridprops xt3doptions None None) ;;
  exercise_A sim ;;;
  sim <~ exercise_BC "" sim ;;
  sim <~ exercise_BC "xt3d" sim ;;
  d <~ exercise_D gridprops ;;
  let '(sim', hgradx, hgrady) := d in
  ret (mkGlobals sg1 sg2 gridprops sim sim' hgradx hgrady).

(** The DISV packages of a simulation, over all its models. *)
Definition disv_packages (sim : MFSimulation) : list Package :=
  flat_map (fun gwf =>
              filter (fun p => match p with
                               | ModflowGwfdisv _ _ _ _ _ => true
                               | _ => false
                               end) (packages gwf))
           (models sim).

(** The cells a CHD package assigns a head to. *)
Definition chd_cells (p : Package) : list Z :=
  match p with
  | ModflowGwfchd spd _ _ =>
      flat_map (fun per => map (fun r => snd (fst r)) (snd per)) spd
  | _ => []
  end.

Definition chd_records (p : Package) : list ChdRec :=
  match p with
  | ModflowGwfchd spd _ _ => flat_map snd spd
  | _ => []
  end.

(** The DISV package [build_sim] makes from a merged mesh. *)
Definition disv_of (gridprops : GridProps) : list Package :=
  [ModflowGwfdisv length_units nlay top botm gridprops].

(** What the log holds: the grids built, the merges made, and the
    simulations written or run. *)
Definition grids_built (log : list Event) : list StructuredGrid :=
  flat_map (fun e => match e with
                     | StructuredGrid_call grid => [grid]
                     | _ => []
                     end) log.

Definition merges_made (log : list Event) : list (list StructuredGrid) :=
  flat_map (fun e => match e with
                     | gridlist_to_disv_gridprops_call gridlist => [gridlist]
                     | _ => []
                     end) log.

Definition simulations_used (log : list Event) : list MFSimulation :=
  flat_map (fun e => match e with
                     | write_simulation_call sim => [sim]
                     | run_simulation_call sim => [sim]
                     | _ => []
                     end) log.

(** [sim.get_model(model_name).npf] *)
Definition npf_of (sim : MFSimulation) : option Npf :=
  gwf <- get_model sim model_name ;; get_npf gwf.

(** What the files of a simulation hold when it is run: after the calls
    of a log, [write_simulation] has written every package and
    [npf.write] the NPF package alone.  Each run is listed with the
    simulation on disk at that moment. *)
Fixpoint runs_with_disk (disk : option MFSimulation) (log : list Event)
  : list (option MFSimulation * MFSimulation) :=
  match log with
  | [] => []
  | write_simulation_call sim :: t => runs_with_disk (Some sim) t
  | npf_write_call npf :: t =>
      runs_with_disk (option_map (set_npf (fun _ => npf)) disk) t
  | run_simulation_call sim :: t => (disk, sim) :: runs_with_disk disk t
  | _ :: t => runs_with_disk disk t
  end.

End Library.

Arguments ModflowTdis {GridProps}.
Arguments ModflowIms {GridProps}.
Arguments ModflowGwfdisv {GridProps}.
Arguments ModflowGwfnpf {GridProps}.
Arguments ModflowGwfic {GridProps}.
Arguments ModflowGwfchd {GridProps}.
Arguments ModflowGwfoc {GridProps}.
Arguments mkGwf {GridProps}.
Arguments modelname {GridProps}.
Arguments save_flows {GridProps}.
Arguments packages {GridProps}.
Arguments mkSim {GridProps}.
Arguments models {GridProps}.
Arguments sim_packages {GridProps}.
Arguments add_package {GridProps}.
Arguments get_model {GridProps}.
Arguments get_npf {GridProps}.
Arguments set_npf {GridProps}.
Arguments add_chds {GridProps}.
Arguments build_sim {GridProps}.
Arguments disv_packages {GridProps}.
Arguments chd_cells {GridProps}.
Arguments chd_records {GridProps}.
Arguments StructuredGrid_call {GridProps}.
Arguments gridlist_to_disv_gridprops_call {GridProps}.
Arguments write_simulation_call {GridProps}.
Arguments run_simulation_call {GridProps}.
Arguments notebook {GridProps}.
Arguments disv_of {GridProps}.
Arguments grids_built {GridProps}.
Arguments merges_made {GridProps}.
Arguments simulations_used {GridProps}.
Arguments sg1 {GridProps}.
Arguments sg2 {GridProps}.
Arguments gridprops {GridProps}.
Arguments sim_base {GridProps}.
Arguments sim {GridProps}.
Arguments hgradx {GridProps}.
Arguments hgrady {GridProps}.
Arguments runs_with_disk {GridProps}.
Arguments npf_of {GridProps}.
Arguments build_grids {GridProps}.

(** Two lists of cells share no cell. *)
Definition disjoint (a b : list Z) : Prop := forall i, In i a -> ~ In i b.

(** The records that give the cells [cells], in order, the heads [f]
    takes at the points [centres]. *)
Definition heads_at (f : R -> R -> R) (cells : list Z) (centres : list (R * R))
  : list ChdRec :=
  map (fun ic => (0%Z, fst ic, f (fst (snd ic)) (snd (snd ic))))
      (combine cells centres).

(** *** Grid geometry *)

(** [np.sum] of a one-dimensional array. *)
Definition total (a : list R) : R := fold_right Rplus 0 a.

(** [a[lo:hi]] *)
Definition slice {A : Type} (lo hi : nat) (a : list A) : list A :=
  firstn (hi - lo) (skipn lo a).

(** The centre of column [j] of a structured grid with column widths
    [delr], and of row [i] of one with row heights [delc]: the midpoint
    of the cell's interval, rows counted from the top. *)
Definition xcenter (delr : list R) (j : nat) : R :=
  total (firstn j delr) + nth j delr 0 / 2.

Definition ycenter (delc : list R) (i : nat) : R :=
  total delc - (total (firstn i delc) + nth i delc 0 / 2).

End Xt3d.

(** ** The notebook's arithmetic on binary64 values

    Python's floats are IEEE 754 binary64 numbers; [+], [-], [*] and [/]
    are the kernel's primitive operations on them.  [math.sin],
    [math.cos] and [**] call the C library, which is a parameter. *)

Module Binary64.

Import PrimFloat.
Local Open Scope float_scope.

(** The functions of the C library the notebook reaches. *)
Record Libm : Type := mkLibm {
  sin : float -> float;
  cos : float -> float;
  pow : float -> float -> float
}.

(** The values the C standard fixes exactly (Annex F): [sin(0) = 0],
    [cos(0) = 1], [pow(1, y) = 1], and [pow(0, y) = 0] for [y = 2]. *)
Definition exact_at_zero (m : Libm) : Prop :=
  sin m 0 = 0 /\ cos m 0 = 1 /\ pow m 1 2 = 1 /\ pow m 0 2 = 0.

(** [math.pi] *)
Definition pi : float := 0x1.921fb54442d18p+1.

(** Float division: [a / b] raises [ZeroDivisionError] when [b == 0.0]. *)
Definition div (a b : float) : option float :=
  if b =? 0 then None else Some (a / b).

(** [def hgrad(k, k22, angle1, qx, qy)] *)
Definition hgrad (m : Libm) (k k22 angle1 qx qy : float) : option (float * float) :=
  let angle := angle1 * pi / 180 in
  let kxx := k * pow m (cos m angle) 2 + k22 * pow m (sin m angle) 2 in
  let kyy := k * pow m (sin m angle) 2 + k22 * pow m (cos m angle) 2 in
  let kxy := (k - k22) * sin m angle * cos m angle in
  let kyx := kxy in
  let det := kxx * kyy - kxy * kyx in
  kinvxx <- div kyy det ;;
  kinvxy <- div (- kxy) det ;;
  kinvyx <- div (- kyx) det ;;
  kinvyy <- div kxx det ;;
  let hgradx := - kinvxx * qx - kinvxy * qy in
  let hgrady := - kinvyx * qx - kinvyy * qy in
  Some (hgradx, hgrady).

(** The binary64 value Python reads [1e-200] as. *)
Definition tiny : float := 0x1.87e92154ef7acp-665.

(** [plot_results], base case: the analytic head at a cell centre [x]. *)
Definition heada_base (x : float) : float :=
  let x := x - 50 in
  let slp := (1 - 0) / (50 - 650) in
  slp * x + 1.

(** [add_chds], base branch: the heads [1.0] of the left column and
    [0.0] of the right column, whose cell centres have [x = 50] and
    [x = 650]. *)
Definition head_left : float := 1.
Definition head_right : float := 0.
Definition x_left : float := 50.
Definition x_right : float := 650.

End Binary64.

(** ** The batch script *)

Module SlurmBatch.

Local Open Scope string_scope.
Local Open Scope list_scope.

(** [data/parallel/slurm.batch], line by line. *)
Definition slurm_batch : list string :=
  [ "#!/bin/bash";
    "";
    "#SBATCH --job-name=1803_1804";
    "#SBATCH --nodes=1";
    "#SBATCH --ntasks=1";
    "#SBATCH --account=impd";
    "#SBATCH --time=00:10:00";
    "#SBATCH --output=slurm-%j.out";
    "#SBATCH --mail-type=FAIL";
    "#SBATCH --mail-user=jdhughes@usgs.gov";
    "";
    "# load appropriate modules";
    "module load modflow/6.6.0.dev0";
    "";
    "# run model";
    "srun mf6 -p";
    "";
    "zip ../../archive/1803_1804_001p_$(date -Ihours) ngwm.ims mfsim.lst ims.inner.csv" ].

(** *** Strings *)

Definition is_blank_char (c : ascii) : bool :=
  Ascii.eqb c " " || Ascii.eqb c "009".

Fixpoint is_blank (s : string) : bool :=
  match s with
  | "" => true
  | String c t => is_blank_char c && is_blank t
  end.

Definition is_comment (s : string) : bool := prefix "#" s.

Definition drop (n : nat) (s : string) : string :=
  substring n (String.length s - n) s.

(** The fields of [s] between its separators, the characters [sep]
    holds for. *)
Fixpoint split_from (sep : ascii -> bool) (s : string) (field : string)
  : list string :=
  match s with
  | "" => [field]
  | String c t =>
      if sep c then field :: split_from sep t ""
      else split_from sep t (field ++ String c "")
  end.

Definition split (sep : ascii) (s : string) : list string :=
  split_from (Ascii.eqb sep) s "".

(** Some character of [s] satisfies [p]. *)
Fixpoint has (p : ascii -> bool) (s : string) : bool :=
  match s with
  | "" => false
  | String c t => p c || has p t
  end.

(** The shell's field separators: space, tab and newline. *)
Definition is_ifs (c : ascii) : bool :=
  Ascii.eqb c " " || Ascii.eqb c "009" || Ascii.eqb c "010".

Definition nonempty (s : string) : bool := negb (String.eqb s "").

Definition contains (sub s : string) : bool :=
  match index 0 sub s with
  | Some _ => true
  | None => false
  end.

Fixpoint take_while {A : Type} (p : A -> bool) (l : list A) : list A :=
  match l with
  | [] => []
  | x :: t => if p x then x :: take_while p t else []
  end.

Definition digit (c : ascii) : option nat :=
  let n := nat_of_ascii c in
  if (48 <=? n)%nat && (n <=? 57)%nat then Some (n - 48) else None.

Fixpoint decimal_from (s : string) (acc : nat) : option nat :=
  match s with
  | "" => Some acc
  | String c t =>
      match digit c with
      | Some d => decimal_from t (10 * acc + d)
      | None => None
      end
  end.

Definition decimal (s : string) : option nat :=
  if nonempty s then decimal_from s 0 else None.

(** *** The scheduler's view: [#SBATCH] directives

    The directives are read from the comment lines that come before
    the first command. *)

Definition header (script : list string) : list string :=
  take_while (fun l => is_blank l || is_comment l) script.

(** [#SBATCH --key=value] *)
Definition directive (line : string) : option (string * string) :=
  if prefix "#SBATCH --" line then
    match split "=" (drop 10 line) with
    | key :: value :: rest => Some (key, concat "=" (value :: rest))
    | key :: [] => Some (key, "")
    | [] => None
    end
  else None.

Definition directives (script : list string) : list (string * string) :=
  flat_map (fun l => match directive l with
                     | Some d => [d]
                     | None => []
                     end) (header script).

(** Every value given for an option, in order. *)
Definition option_values (key : string) (script : list string) : list string :=
  map snd (filter (fun d => String.eqb (fst d) key) (directives script)).

(** The scheduler's reading of [--time], for the formats minutes,
    minutes:seconds and hours:minutes:seconds. *)
Definition time_limit_seconds (t : string) : option nat :=
  match map decimal (split ":" t) with
  | [Some m] => Some (60 * m)
  | [Some m; Some s] => Some (60 * m + s)
  | [Some h; Some m; Some s] => Some (3600 * h + 60 * m + s)
  | _ => None
  end.

(** [--mail-type] and [--mail-user] are comma-separated lists. *)
Definition mail_types (script : list string) : list string :=
  flat_map (split ",") (option_values "mail-type" script).

Definition mail_users (script : list string) : list string :=
  flat_map (split ",") (option_values "mail-user" script).

(** *** The shell's view: commands and their words *)

Definition commands (script : list string) : list string :=
  filter (fun l => negb (is_blank l) && negb (is_comment l)) script.

Inductive Part : Type :=
| Lit (text : string)
| CmdSubst (command : string).

Definition Word : Type := list Part.

(** Characters with a meaning to the shell that the reader below does
    not interpret: quotes, escapes, redirections and the control
    operators [;], [|], [&]. *)
Definition uninterpreted (c : ascii) : bool :=
  existsb (Ascii.eqb c) ["'"; "034"; "092"; "`"; ";"; "|"; "&"; "<"; ">"; "*"; "?";
                         "{"; "}"; "~"; "#"; "!"]%char.

Definition end_lit (parts : list Part) (buf : string) : list Part :=
  if nonempty buf then parts ++ [Lit buf] else parts.

Definition end_word (words : list Word) (parts : list Part) : list Word :=
  match parts with
  | [] => words
  | _ => words ++ [parts]
  end.

(** Words are separated by blanks; [$(command)] is a command
    substitution inside a word.  [depth] counts the open parentheses of
    the substitution being read. *)
Fixpoint read_words (s : string) (depth : nat) (buf : string)
    (parts : list Part) (words : list Word) : option (list Word) :=
  match s with
  | "" =>
      match depth with
      | O => Some (end_word words (end_lit parts buf))
      | S _ => None
      end
  | String c rest =>
      match depth with
      | O =>
          if is_blank_char c then
            read_words rest 0 "" [] (end_word words (end_lit parts buf))
          else if Ascii.eqb c "$" then
            match rest with
            | String "(" rest' =>
                read_words rest' 1 "" (end_lit parts buf) words
            | _ => None
            end
          else if uninterpreted c || Ascii.eqb c "(" || Ascii.eqb c ")" then None
          else read_words rest 0 (buf ++ String c "") parts words
      | S d =>
          if Ascii.eqb c ")" then
            match d with
            | O => read_words rest 0 "" (parts ++ [CmdSubst buf]) words
            | S _ => read_words rest d (buf ++ ")") parts words
            end
          else if Ascii.eqb c "(" then
            read_words rest (S depth) (buf ++ "(") parts words
          else read_words rest depth (buf ++ String c "") parts words
      end
  end.

Definition words (command : string) : option (list Word) :=
  read_words command 0 "" [] [].

(** Expansion of a word: each command substitution is replaced by the
    output [run] gives for it, and the result is split into fields. *)
Definition expand_part (run : string -> string) (p : Part) : string :=
  match p with
  | Lit text => text
  | CmdSubst command => run command
  end.

Definition expand_word (run : string -> string) (w : Word) : list string :=
  filter nonempty (split_from is_ifs (concat "" (map (expand_part run) w)) "").

(** The argument vector of a command. *)
Definition argv (run : string -> string) (command : string)
  : option (list string) :=
  match words command with
  | Some ws => Some (flat_map (expand_word run) ws)
  | None => None
  end.

Fixpoint all_some {A : Type} (l : list (option A)) : option (list A) :=
  match l with
  | [] => Some []
  | Some a :: t =>
      match all_some t with
      | Some t' => Some (a :: t')
      | None => None
      end
  | None :: _ => None
  end.

(** The commands the script runs, in order, each as its argument vector. *)
Definition run_script (run : string -> string) (script : list string)
  : option (list (list string)) :=
  all_some (map (argv run) (commands script)).

Definition program (args : list string) : string := hd "" args.

(** [zip archive file ...] *)
Definition zip_archive (args : list string) : option string :=
  match args with
  | "zip" :: archive :: _ => Some archive
  | _ => None
  end.

Definition zip_files (args : list string) : list string :=
  match args with
  | "zip" :: _ :: files => files
  | _ => []
  end.

(** *** Paths *)

(** The directory part of a path: its components but the last. *)
Definition dirname (path : string) : list string := removelast (split "/" path).

(** A directory, given by its components from the root, after following
    a relative path. *)
Fixpoint resolve (cwd : list string) (rel : list string) : list string :=
  match rel with
  | [] => cwd
  | c :: t =>
      if String.eqb c ".." then resolve (removelast cwd) t
      else if String.eqb c "." || String.eqb c "" then resolve cwd t
      else resolve (cwd ++ [c]) t
  end.

(** *** Control flow

    Words that make a command depend on the outcome of another one. *)
Definition control_words : list string :=
  [ "if"; "then"; "elif"; "else"; "fi"; "while"; "until"; "for"; "do";
    "done"; "case"; "esac"; "trap"; "set"; "exit"; "return"; "test";
    "["; "[["; "wait"; "eval"; "exec" ].

Definition is_control (w : string) : bool := existsb (String.eqb w) control_words.

(** A command is plain when its words hold no control word and no
    parameter expansion such as [$?]. *)
Definition plain_word (w : Word) : bool :=
  forallb (fun p => match p with
                    | Lit text => negb (is_control text) && negb (contains "$" text)
                    | CmdSubst _ => true
                    end) w.

Definition plain_command (command : string) : bool :=
  match words command with
  | Some ws => forallb plain_word ws
  | None => false
  end.

(** *** The scheduler's notifications

    The job scheduler is not part of the repository; what the
    specification says of it, "wall-time exceeded triggers a failure
    email", is modelled here. *)

(** Modelled from the spec: the states a job can end in. *)
Inductive JobState : Type := COMPLETED | FAILED | TIMEOUT.

(** Modelled from the spec: a job that needs more than its time limit
    is stopped and ends in [TIMEOUT]. *)
Definition final_state (limit needed : nat) (exit_ok : bool) : JobState :=
  if (limit <? needed)%nat then TIMEOUT
  else if exit_ok then COMPLETED else FAILED.

(** Modelled from the spec: a job that does not complete, a timed-out
    one included, raises the [FAIL] event. *)
Definition job_event (st : JobState) : string :=
  match st with
  | COMPLETED => "END"
  | FAILED | TIMEOUT => "FAIL"
  end.

(** Modelled from the spec: the event of the job's end is mailed to
    every listed user when its type was requested by [--mail-type]. *)
Definition notifications (script : list string) (st : JobState)
  : list (string * string) :=
  if existsb (String.eqb (job_event st)) (mail_types script)
  then map (fun user => (job_event st, user)) (mail_users script)
  else [].

(** *** Running the script

    The shell runs the commands one after the other.  A command that
    fails stops the script only when [errexit] is on, by [-e] on the
    first line or by [set -e]; the script exits with the status of the
    last command it ran. *)

Definition sets_errexit (args : list string) : bool :=
  match args with
  | "set" :: opts =>
      existsb (String.eqb "-e") opts || existsb (String.eqb "errexit") opts
  | _ => false
  end.

Definition starts_with_errexit (script : list string) : bool :=
  match script with
  | first :: _ => prefix "#!" first && existsb (String.eqb "-e") (split " " first)
  | [] => false
  end.

Fixpoint exec_from (status : list string -> nat) (errexit : bool)
    (cmds : list (list string)) (last : nat) : list (list string) * nat :=
  match cmds with
  | [] => ([], last)
  | args :: rest =>
      if sets_errexit args then
        let '(ran, st) := exec_from status true rest 0 in (args :: ran, st)
      else
        let st := status args in
        if errexit && negb (st =? 0)%nat then ([args], st)
        else let '(ran, st') := exec_from status errexit rest st in
             (args :: ran, st')
  end.

(** The commands the script runs and the status it exits with, when
    [status] gives the exit status of each command. *)
Definition exec_script (run : string -> string) (status : list string -> nat)
    (script : list string) : option (list (list string) * nat) :=
  match run_script run script with
  | Some cmds => Some (exec_from status (starts_with_errexit script) cmds 0)
  | None => None
  end.

End SlurmBatch.

(** ** Properties of [hgrad] *)

Section HgradFacts.

Import Xt3d.
Local Open Scope string_scope.
Local Open Scope list_scope.
Local Open Scope R_scope.

Lemma det_of_eq (k k22 angle1 : R) : det_of k k22 angle1 = k * k22.
Proof.
  unfold det_of, kxx_of, kyy_of, kxy_of.
  generalize (sin2_cos2 (angle_of angle1)).
  unfold Rsqr.
  set (s := sin (angle_of angle1)); set (c := cos (angle_of angle1)).
  intros H.
  replace (k * k22) with (k * k22 * ((s * s + c * c) * (s * s + c * c)))
    by (rewrite H; ring).
  ring.
Qed.

Lemma det_of_nonzero (k k22 angle1 : R) :
  0 < k -> 0 < k22 -> det_of k k22 angle1 <> 0.
Proof.
  intros Hk Hk22. rewrite det_of_eq.
  apply Rgt_not_eq. apply Rmult_lt_0_compat; assumption.
Qed.

Lemma div_some (a b : R) : b <> 0 -> Py.div a b = Some (a / b).
Proof.
  intros Hb. unfold Py.div.
  destruct (Req_dec_T b 0) as [E | _]; [contradiction | reflexivity].
Qed.

Lemma div_none (a : R) : Py.div a 0 = None.
Proof.
  unfold Py.div.
  destruct (Req_dec_T 0 0) as [_ | N]; [reflexivity | now elim N].
Qed.

(** The value [hgrad] returns when the determinant is not zero. *)
Lemma hgrad_value (k k22 angle1 qx qy : R) :
  det_of k k22 angle1 <> 0 ->
  hgrad k k22 angle1 qx qy =
  Some (- (kyy_of k k22 angle1 / det_of k k22 angle1) * qx
        - (- kxy_of k k22 angle1 / det_of k k22 angle1) * qy,
        - (- kxy_of k k22 angle1 / det_of k k22 angle1) * qx
        - (kxx_of k k22 angle1 / det_of k k22 angle1) * qy).
Proof.
  intros Hdet. unfold hgrad.
  change (angle1 * PI / 180) with (angle_of angle1).
  fold (kxx_of k k22 angle1) (kyy_of k k22 angle1) (kxy_of k k22 angle1).
  change (kxx_of k k22 angle1 * kyy_of k k22 angle1
          - kxy_of k k22 angle1 * kxy_of k k22 angle1)
    with (det_of k k22 angle1).
  rewrite !div_some by exact Hdet. reflexivity.
Qed.

Lemma kyy_iso (k angle1 : R) : kyy_of k k angle1 = k.
Proof.
  unfold kyy_of. generalize (sin2_cos2 (angle_of angle1)). unfold Rsqr.
  intros H. replace k with (k * (sin (angle_of angle1) * sin (angle_of angle1)
                                 + cos (angle_of angle1) * cos (angle_of angle1))) at 3
    by (rewrite H; ring).
  ring.
Qed.

Lemma kxx_iso (k angle1 : R) : kxx_of k k angle1 = k.
Proof.
  unfold kxx_of. generalize (sin2_cos2 (angle_of angle1)). unfold Rsqr.
  intros H. replace k with (k * (sin (angle_of angle1) * sin (angle_of angle1)
                                 + cos (angle_of angle1) * cos (angle_of angle1))) at 3
    by (rewrite H; ring).
  ring.
Qed.

Lemma kxy_iso (k angle1 : R) : kxy_of k k angle1 = 0.
Proof. unfold kxy_of. ring. Qed.

(** A 2x2 system with non-zero determinant has the solution Cramer's
    rule gives, and no other. *)
Lemma cramer_solves (a b c qx qy : R) :
  a * b - c * c <> 0 ->
  qx = - (a * (- (b / (a * b - c * c)) * qx - (- c / (a * b - c * c)) * qy)
          + c * (- (- c / (a * b - c * c)) * qx - (a / (a * b - c * c)) * qy)) /\
  qy = - (c * (- (b / (a * b - c * c)) * qx - (- c / (a * b - c * c)) * qy)
          + b * (- (- c / (a * b - c * c)) * qx - (a / (a * b - c * c)) * qy)).
Proof. intros D. split; field; exact D. Qed.

Lemma cramer_unique (a b c qx qy gx gy : R) :
  a * b - c * c <> 0 ->
  qx = - (a * gx + c * gy) ->
  qy = - (c * gx + b * gy) ->
  gx = - (b / (a * b - c * c)) * qx - (- c / (a * b - c * c)) * qy /\
  gy = - (- c / (a * b - c * c)) * qx - (a / (a * b - c * c)) * qy.
Proof. intros D -> ->. split; field; exact D. Qed.

(** C1. For K > 0 and K22 > 0, any ANGLE1 and any flux (qx, qy), [hgrad]
    returns a head gradient that satisfies Darcy's Law q = - K grad h for
    the conductivity tensor of the notebook, and it is the only head
    gradient that does. *)
Theorem hgrad_solves_darcy (k k22 angle1 qx qy : R) :
  0 < k -> 0 < k22 ->
  exists g : R * R,
    hgrad k k22 angle1 qx qy = Some g /\
    darcy k k22 angle1 qx qy g /\
    forall g' : R * R, darcy k k22 angle1 qx qy g' -> g' = g.
Proof.
  intros Hk Hk22.
  pose proof (det_of_nonzero k k22 angle1 Hk Hk22) as Hdet.
  rewrite (hgrad_value _ _ _ _ _ Hdet).
  eexists; split; [reflexivity|].
  unfold det_of in *; cbv zeta in *.
  split.
  - unfold darcy; cbn [fst snd]. apply cramer_solves; exact Hdet.
  - intros [gx gy] [Hx Hy]; cbn [fst snd] in Hx, Hy.
    destruct (cramer_unique _ _ _ _ _ _ _ Hdet Hx Hy) as [Ex Ey].
    now rewrite <- Ex, <- Ey.
Qed.

Lemma hgrad_solves_darcy_witness :
  exists g : R * R,
    hgrad 1 (1 / 10) 45 (1 / 600) 0 = Some g /\
    darcy 1 (1 / 10) 45 (1 / 600) 0 g /\
    forall g' : R * R, darcy 1 (1 / 10) 45 (1 / 600) 0 g' -> g' = g.
Proof. apply hgrad_solves_darcy; lra. Defined.

(** C2, as amended.  Over exact real arithmetic, for K > 0 and K22 > 0
    the determinant [det] of [hgrad] equals K * K22 and is not zero, so
    each of the four divisions by [det] yields a value and [hgrad]
    returns.  (On binary64 values the divisions can fail for positive
    K and K22: see the counterexample in the next section.) *)
Theorem hgrad_det_nonzero (k k22 angle1 qx qy : R) :
  0 < k -> 0 < k22 ->
  det_of k k22 angle1 = k * k22 /\
  det_of k k22 angle1 <> 0 /\
  Py.div (kyy_of k k22 angle1) (det_of k k22 angle1)
    = Some (kyy_of k k22 angle1 / det_of k k22 angle1) /\
  Py.div (- kxy_of k k22 angle1) (det_of k k22 angle1)
    = Some (- kxy_of k k22 angle1 / det_of k k22 angle1) /\
  Py.div (kxx_of k k22 angle1) (det_of k k22 angle1)
    = Some (kxx_of k k22 angle1 / det_of k k22 angle1) /\
  hgrad k k22 angle1 qx qy <> None.
Proof.
  intros Hk Hk22.
  pose proof (det_of_nonzero k k22 angle1 Hk Hk22) as Hdet.
  repeat split; try (apply div_some; exact Hdet).
  - apply det_of_eq.
  - exact Hdet.
  - rewrite (hgrad_value _ _ _ _ _ Hdet). discriminate.
Qed.

Lemma hgrad_det_nonzero_witness :
  det_of 1 (1 / 10) 45 = 1 * (1 / 10) /\
  det_of 1 (1 / 10) 45 <> 0 /\
  Py.div (kyy_of 1 (1 / 10) 45) (det_of 1 (1 / 10) 45)
    = Some (kyy_of 1 (1 / 10) 45 / det_of 1 (1 / 10) 45) /\
  Py.div (- kxy_of 1 (1 / 10) 45) (det_of 1 (1 / 10) 45)
    = Some (- kxy_of 1 (1 / 10) 45 / det_of 1 (1 / 10) 45) /\
  Py.div (kxx_of 1 (1 / 10) 45) (det_of 1 (1 / 10) 45)
    = Some (kxx_of 1 (1 / 10) 45 / det_of 1 (1 / 10) 45) /\
  hgrad 1 (1 / 10) 45 (1 / 600) 0 <> None.
Proof. apply hgrad_det_nonzero; lra. Defined.

(** C8. In the isotropic case K22 = K > 0, [hgrad] returns
    (- qx / K, - qy / K) whatever ANGLE1 is. *)
Theorem hgrad_isotropic (k angle1 qx qy : R) :
  0 < k ->
  hgrad k k angle1 qx qy = Some (- qx / k, - qy / k).
Proof.
  intros Hk.
  assert (Hk0 : k <> 0) by (apply Rgt_not_eq; exact Hk).
  rewrite (hgrad_value _ _ _ _ _ (det_of_nonzero k k angle1 Hk Hk)).
  rewrite det_of_eq, kyy_iso, kxx_iso, kxy_iso.
  f_equal. f_equal; field; exact Hk0.
Qed.

Lemma hgrad_isotropic_witness :
  hgrad 2 2 30 (1 / 600) 5 = Some (- (1 / 600) / 2, - 5 / 2).
Proof. apply hgrad_isotropic; lra. Defined.

End HgradFacts.

(** ** [hgrad] on binary64 values *)

Section HgradBinary64.

Import PrimFloat.
Local Open Scope float_scope.

(** C2, counterexample.  On binary64 values the determinant can be zero
    for positive conductivities: at K = K22 = 1e-200 and ANGLE1 = 0 the
    tensor is diagonal with Kxx = Kyy = 1e-200, their product underflows
    to 0.0, and [hgrad(1e-200, 1e-200, 0, 1, 0)] raises
    [ZeroDivisionError], whatever C library computes [sin], [cos] and
    [pow], as long as it returns the exact values at 0 and 1. *)
Lemma hgrad_binary64_divides_by_zero :
  (0 <? Binary64.tiny) = true /\
  forall m : Binary64.Libm,
    Binary64.exact_at_zero m ->
    Binary64.hgrad m Binary64.tiny Binary64.tiny 0 1 0 = None.
Proof.
  split; [reflexivity|].
  intros m (Hsin & Hcos & Hpow1 & Hpow0).
  unfold Binary64.hgrad.
  change (0 * Binary64.pi / 180) with 0.
  rewrite Hsin, Hcos, Hpow1, Hpow0.
  vm_compute. reflexivity.
Qed.

End HgradBinary64.

(** ** Properties of [add_chds] and [plot_results] *)

Section ChdFacts.

Import Xt3d.
Local Open Scope R_scope.

Variable GridProps : Type.

Lemma add_chds_packages (gwf : ModflowGwf GridProps) (hgradx hgrady : option R)
    (chds : list (Package GridProps)) :
  chd_packages GridProps hgradx hgrady = Some chds ->
  add_chds gwf hgradx hgrady
  = Some (mkGwf (modelname gwf) (save_flows gwf) (packages gwf ++ chds)).
Proof.
  intros E. unfold add_chds. rewrite E. cbn [Py.bind]. f_equal.
  clear E. revert gwf. induction chds as [| p chds IH]; intros gwf; cbn [fold_left].
  - rewrite app_nil_r. now destruct gwf.
  - rewrite IH. cbn [add_package modelname save_flows packages].
    now rewrite <- app_assoc.
Qed.

Ltac cells_nodup :=
  repeat (constructor; [cbn; intros H; repeat (destruct H as [H | H]; [discriminate H|]); exact H|]);
  constructor.

Lemma side_cells_nodup : NoDup (left_cells ++ right_cells).
Proof. unfold left_cells, right_cells. cbn [app]. cells_nodup. Qed.

Lemma boundary_cells_nodup :
  NoDup (left_cells ++ right_cells ++ top_cells ++ bottom_cells).
Proof.
  unfold left_cells, right_cells, top_cells, bottom_cells. cbn [app].
  cells_nodup.
Qed.

Ltac cells_disjoint :=
  intros i Hi Hj; cbn in Hi, Hj;
  repeat (destruct Hi as [Hi | Hi];
          [subst i; repeat (destruct Hj as [Hj | Hj]; [discriminate Hj|]); exact Hj|]);
  exact Hi.

(** C9. The CHD packages [add_chds] creates assign heads to pairwise
    disjoint sets of cells: CHD-LEFT and CHD-RIGHT in the base branch
    ([hgradx is None]), CHD-LEFT, CHD-RIGHT, CHD-TOP and CHD-BOTTOM in
    the anisotropic branch; no cell is given a head twice. *)
Theorem add_chds_cells_disjoint (gwf : ModflowGwf GridProps) :
  (forall hgrady : option R,
      exists left right : Package GridProps,
        add_chds gwf None hgrady
        = Some (mkGwf (modelname gwf) (save_flows gwf)
                  (packages gwf ++ [left; right])) /\
        chd_cells left = [0; 7; 14; 18; 22; 26; 33]%Z /\
        chd_cells right = [6; 13; 17; 21; 25; 32; 39]%Z /\
        disjoint (chd_cells left) (chd_cells right) /\
        NoDup (flat_map chd_cells [left; right])) /\
  (forall hgradx hgrady : R,
      exists left right top bottom : Package GridProps,
        add_chds gwf (Some hgradx) (Some hgrady)
        = Some (mkGwf (modelname gwf) (save_flows gwf)
                  (packages gwf ++ [left; right; top; bottom])) /\
        chd_cells left = [0; 7; 14; 18; 22; 26; 33]%Z /\
        chd_cells right = [6; 13; 17; 21; 25; 32; 39]%Z /\
        chd_cells top = [1; 2; 3; 4; 5]%Z /\
        chd_cells bottom = [34; 35; 36; 37; 38]%Z /\
        disjoint (chd_cells left) (chd_cells right) /\
        disjoint (chd_cells left) (chd_cells top) /\
        disjoint (chd_cells left) (chd_cells bottom) /\
        disjoint (chd_cells right) (chd_cells top) /\
        disjoint (chd_cells right) (chd_cells bottom) /\
        disjoint (chd_cells top) (chd_cells bottom) /\
        NoDup (flat_map chd_cells [left; right; top; bottom])).
Proof.
  split.
  - intros hgrady. do 2 eexists.
    split; [apply add_chds_packages; reflexivity|].
    repeat split; try cells_disjoint.
    exact side_cells_nodup.
  - intros hgradx hgrady. do 4 eexists.
    split; [apply add_chds_packages; reflexivity|].
    repeat split; try cells_disjoint.
    exact boundary_cells_nodup.
Qed.

(** C10. The analytic head of the error plot takes, at the centres of
    the boundary cells, the heads [add_chds] prescribes there.  Base
    case: it is - 1/600 * (x - 50) + 1, which is 1 at x = 50 and 0 at
    x = 650 (on binary64 values too), and [add_chds] gives head 1 to each
    cell of the left column and head 0 to each cell of the right column.
    Anisotropic case: it is hgradx * x + hgrady * y - hconst with
    hconst = hgradx * 50 + hgrady * 50 - 1, and [add_chds] gives each
    boundary cell its value at the centre of the cell. *)
Theorem heada_matches_chds (gwf : ModflowGwf GridProps) :
  (forall hgrady : option R,
      exists (f : R -> R -> R) (left right : Package GridProps),
        heada None hgrady = Some f /\
        (forall x y, f x y = - 1 / 600 * (x - 50) + 1) /\
        (forall y, f 50 y = 1) /\
        (forall y, f 650 y = 0) /\
        Binary64.heada_base Binary64.x_left = Binary64.head_left /\
        Binary64.heada_base Binary64.x_right = Binary64.head_right /\
        add_chds gwf None hgrady
        = Some (mkGwf (modelname gwf) (save_flows gwf)
                  (packages gwf ++ [left; right])) /\
        chd_packages GridProps None hgrady = Some [left; right] /\
        chd_records left
        = map (fun i : Z => (0%Z, i, 1)) [0; 7; 14; 18; 22; 26; 33]%Z /\
        chd_records right
        = map (fun i : Z => (0%Z, i, 0)) [6; 13; 17; 21; 25; 32; 39]%Z /\
        Forall (fun r => forall y, snd r = f 50 y) (chd_records left) /\
        Forall (fun r => forall y, snd r = f 650 y) (chd_records right)) /\
  (forall hgradx hgrady : R,
      exists (f : R -> R -> R) (left right top bottom : Package GridProps),
        heada (Some hgradx) (Some hgrady) = Some f /\
        (forall x y,
            f x y = hgradx * x + hgrady * y - (hgradx * 50 + hgrady * 50 - 1)) /\
        add_chds gwf (Some hgradx) (Some hgrady)
        = Some (mkGwf (modelname gwf) (save_flows gwf)
                  (packages gwf ++ [left; right; top; bottom])) /\
        chd_packages GridProps (Some hgradx) (Some hgrady)
        = Some [left; right; top; bottom] /\
        chd_records left
        = heads_at f [0; 7; 14; 18; 22; 26; 33]%Z
            [(50, 650); (50, 550); (50, 450); (50, 350); (50, 250);
             (50, 150); (50, 50)] /\
        chd_records right
        = heads_at f [6; 13; 17; 21; 25; 32; 39]%Z
            [(650, 650); (650, 550); (650, 450); (650, 350); (650, 250);
             (650, 150); (650, 50)] /\
        chd_records top
        = heads_at f [1; 2; 3; 4; 5]%Z
            [(150, 650); (250, 650); (350, 650); (450, 650); (550, 650)] /\
        chd_records bottom
        = heads_at f [34; 35; 36; 37; 38]%Z
            [(150, 50); (250, 50); (350, 50); (450, 50); (550, 50)]).
Proof.
  split.
  - intros hgrady. do 3 eexists.
    split; [reflexivity|].
    split; [intros x y; cbv beta zeta; field|].
    split; [intros y; cbv beta zeta; field|].
    split; [intros y; cbv beta zeta; field|].
    split; [vm_compute; reflexivity|].
    split; [vm_compute; reflexivity|].
    split; [apply add_chds_packages; reflexivity|].
    split; [reflexivity|].
    split; [reflexivity|].
    split; [reflexivity|].
    split; cbn; repeat constructor; intros y; cbn [snd]; field.
  - intros hgradx hgrady. do 5 eexists.
    split; [reflexivity|].
    split; [intros x y; reflexivity|].
    split; [apply add_chds_packages; reflexivity|].
    split; [reflexivity|].
    repeat split; reflexivity.
Qed.

End ChdFacts.

(** ** The notebook's workflow *)

Section WorkflowFacts.

Import Xt3d.
Local Open Scope R_scope.

Variable GridProps : Type.
Variable gridlist_to_disv_gridprops : list StructuredGrid -> GridProps.

(** The head gradient of exercise D. *)
Lemma hgrad_exercise_D :
  exists hgradx hgrady : R,
    hgrad k11 (0.1 * k11) 45 (1 / 600) 0 = Some (hgradx, hgrady).
Proof.
  assert (Hdet : det_of k11 (0.1 * k11) 45 <> 0)
    by (apply det_of_nonzero; unfold k11; lra).
  rewrite (hgrad_value _ _ _ _ _ Hdet). do 2 eexists. reflexivity.
Qed.

(** Whatever head gradient it is given, [build_sim] gives the model one
    DISV package, built from the merged mesh it reads. *)
Lemma build_sim_disv (gridprops : GridProps) (xt3doptions : option string)
    (hgradx hgrady : option R) (sim : MFSimulation GridProps) :
  build_sim gridprops xt3doptions hgradx hgrady = Some sim ->
  disv_packages sim = disv_of gridprops.
Proof.
  unfold build_sim, add_chds.
  destruct hgradx as [gx|], hgrady as [gy|]; cbn;
    intros E; inversion E; reflexivity.
Qed.

(** C3. The notebook builds two structured grids, [sg1] and [sg2],
    merges the list [[sg1, sg2]] into [gridprops] by one call of
    [gridlist_to_disv_gridprops], and every simulation it builds, writes
    or runs has exactly one DISV package, the one made from
    [gridprops]. *)
Theorem notebook_mesh_workflow :
  exists (G : Globals GridProps) (log : list (Event GridProps)),
    notebook gridlist_to_disv_gridprops [] = Some (G, log) /\
    sg1 G = mkStructuredGrid Outer.delr Outer.delc Outer.tp Outer.bt
              None None Outer.idomain /\
    sg2 G = mkStructuredGrid Inner.delr Inner.delc Inner.tp Inner.bt
              (Some 200) (Some 200) Inner.idomain /\
    grids_built log = [sg1 G; sg2 G] /\
    merges_made log = [[sg1 G; sg2 G]] /\
    gridprops G = gridlist_to_disv_gridprops [sg1 G; sg2 G] /\
    disv_packages (sim_base G) = disv_of (gridprops G) /\
    disv_packages (sim G) = disv_of (gridprops G) /\
    Forall (fun s => disv_packages s = disv_of (gridprops G))
           (simulations_used log).
Proof.
  destruct hgrad_exercise_D as (gx & gy & E).
  unfold notebook, exercise_D. cbv zeta. rewrite E.
  do 2 eexists. split; [reflexivity|].
  cbn [sg1 sg2 gridprops sim_base sim].
  repeat split.
  repeat constructor.
Qed.

End WorkflowFacts.

(** ** Properties of the batch script *)

Section BatchFacts.

Import SlurmBatch.
Local Open Scope string_scope.
Local Open Scope list_scope.

Lemma append_empty_r (s : string) : (s ++ "")%string = s.
Proof. induction s as [| c s IH]; cbn; [reflexivity | now rewrite IH]. Qed.

Lemma append_assoc (a b c : string) : ((a ++ b) ++ c)%string = (a ++ (b ++ c))%string.
Proof. induction a as [| x a IH]; cbn; [reflexivity | now rewrite IH]. Qed.

(** A string without separators is one field. *)
Lemma split_from_one_field (sep : ascii -> bool) (s field : string) :
  has sep s = false -> split_from sep s field = [(field ++ s)%string].
Proof.
  revert field. induction s as [| c s IH]; intros field H; cbn in *.
  - now rewrite append_empty_r.
  - apply orb_false_iff in H as [Hc Hs]. rewrite Hc, (IH _ Hs).
    now rewrite append_assoc.
Qed.

Lemma resolve_up2 (base : list string) (a b : string) :
  resolve (base ++ [a; b]) [".."; ".."; "archive"] = base ++ ["archive"].
Proof.
  cbn [resolve String.eqb Ascii.eqb Bool.eqb orb].
  change (base ++ [a; b]) with (base ++ [a] ++ [b]).
  rewrite app_assoc, !removelast_last. reflexivity.
Qed.

(** The three commands of the script, as the shell reads them. *)
Lemma script_words :
  map words (commands slurm_batch)
  = [ Some [[Lit "module"]; [Lit "load"]; [Lit "modflow/6.6.0.dev0"]];
      Some [[Lit "srun"]; [Lit "mf6"]; [Lit "-p"]];
      Some [[Lit "zip"];
            [Lit "../../archive/1803_1804_001p_"; CmdSubst "date -Ihours"];
            [Lit "ngwm.ims"]; [Lit "mfsim.lst"]; [Lit "ims.inner.csv"]] ].
Proof. reflexivity. Qed.

Lemma script_commands :
  commands slurm_batch
  = [ "module load modflow/6.6.0.dev0"; "srun mf6 -p";
      "zip ../../archive/1803_1804_001p_$(date -Ihours) ngwm.ims mfsim.lst ims.inner.csv" ].
Proof. vm_compute. reflexivity. Qed.

Lemma split_from_app (sep : ascii -> bool) (a b field : string) :
  has sep a = false ->
  split_from sep (a ++ b)%string field = split_from sep b (field ++ a)%string.
Proof.
  revert field. induction a as [| c a IH]; intros field H; cbn in *.
  - now rewrite append_empty_r.
  - apply orb_false_iff in H as [Hc Ha]. rewrite Hc, (IH _ Ha).
    now rewrite append_assoc.
Qed.

(** A word made of a literal and a substitution that prints one field
    expands to one argument. *)
Lemma expand_lit_subst (run : string -> string) (text command : string) :
  nonempty text = true ->
  has is_ifs text = false ->
  has is_ifs (run command) = false ->
  expand_word run [Lit text; CmdSubst command] = [(text ++ run command)%string].
Proof.
  intros Hne Htext Hout. unfold expand_word.
  cbn [map expand_part concat].
  change ("" ++ run command)%string with (run command).
  rewrite (split_from_app _ _ _ _ Htext), (split_from_one_field _ _ _ Hout).
  change ("" ++ text)%string with text.
  cbn [filter]. destruct text as [| c t]; [discriminate Hne | reflexivity].
Qed.

(** The argument vectors, when the substituted command prints one
    field. *)
Lemma script_argv (run : string -> string) :
  has is_ifs (run "date -Ihours") = false ->
  run_script run slurm_batch
  = Some [ ["module"; "load"; "modflow/6.6.0.dev0"];
           ["srun"; "mf6"; "-p"];
           ["zip";
            ("../../archive/1803_1804_001p_" ++ run "date -Ihours")%string;
            "ngwm.ims"; "mfsim.lst"; "ims.inner.csv"] ].
Proof.
  intros H. unfold run_script. rewrite script_commands.
  cbn [map]. unfold argv.
  assert (W1 : words "module load modflow/6.6.0.dev0"
               = Some [[Lit "module"]; [Lit "load"]; [Lit "modflow/6.6.0.dev0"]])
    by (vm_compute; reflexivity).
  assert (W2 : words "srun mf6 -p" = Some [[Lit "srun"]; [Lit "mf6"]; [Lit "-p"]])
    by (vm_compute; reflexivity).
  assert (W3 : words "zip ../../archive/1803_1804_001p_$(date -Ihours) ngwm.ims mfsim.lst ims.inner.csv"
               = Some [[Lit "zip"];
                       [Lit "../../archive/1803_1804_001p_"; CmdSubst "date -Ihours"];
                       [Lit "ngwm.ims"]; [Lit "mfsim.lst"]; [Lit "ims.inner.csv"]])
    by (vm_compute; reflexivity).
  rewrite W1, W2, W3.
  cbn [flat_map].
  rewrite (expand_lit_subst run "../../archive/1803_1804_001p_" "date -Ihours"
             eq_refl eq_refl H).
  reflexivity.
Qed.

(** C4. The script asks for one node, one task and a wall-clock limit
    of 00:10:00 (600 seconds); it runs the simulator once, by
    [srun mf6 -p], and archives after the run. *)
Theorem batch_one_node_one_task_one_run :
  option_values "nodes" slurm_batch = ["1"] /\
  option_values "ntasks" slurm_batch = ["1"] /\
  option_values "time" slurm_batch = ["00:10:00"] /\
  time_limit_seconds "00:10:00" = Some 600 /\
  map words (commands slurm_batch)
  = [ Some [[Lit "module"]; [Lit "load"]; [Lit "modflow/6.6.0.dev0"]];
      Some [[Lit "srun"]; [Lit "mf6"]; [Lit "-p"]];
      Some [[Lit "zip"];
            [Lit "../../archive/1803_1804_001p_"; CmdSubst "date -Ihours"];
            [Lit "ngwm.ims"]; [Lit "mfsim.lst"]; [Lit "ims.inner.csv"]] ] /\
  filter (prefix "srun") (commands slurm_batch) = ["srun mf6 -p"] /\
  forall run : string -> string,
    option_map (map program) (run_script run slurm_batch)
    = Some ["module"; "srun"; "zip"].
Proof. repeat split. Qed.

(** C5. The last command of the script puts the three files [ngwm.ims],
    [mfsim.lst] and [ims.inner.csv] into one archive; the archive's name
    ends with the output of [date -Ihours], and its directory is
    [../../archive]: the directory [archive] beside the parent of the
    working directory. *)
Theorem batch_archives_three_files (run : string -> string) :
  has is_ifs (run "date -Ihours") = false ->
  has (Ascii.eqb "/") (run "date -Ihours") = false ->
  exists (before : list (list string)) (args : list string) (archive : string),
    run_script run slurm_batch = Some (before ++ [args]) /\
    map program before = ["module"; "srun"] /\
    program args = "zip" /\
    zip_archive args = Some archive /\
    archive = ("../../archive/1803_1804_001p_" ++ run "date -Ihours")%string /\
    zip_files args = ["ngwm.ims"; "mfsim.lst"; "ims.inner.csv"] /\
    dirname archive = [".."; ".."; "archive"] /\
    forall (base : list string) (a b : string),
      resolve (base ++ [a; b]) (dirname archive) = base ++ ["archive"].
Proof.
  intros Hifs Hslash.
  assert (Hdir : dirname ("../../archive/1803_1804_001p_" ++ run "date -Ihours")
                 = [".."; ".."; "archive"]).
  { unfold dirname, split. set (out := run "date -Ihours") in *.
    cbn [append split_from Ascii.eqb Bool.eqb].
    rewrite (split_from_one_field _ _ _ Hslash). reflexivity. }
  exists [ ["module"; "load"; "modflow/6.6.0.dev0"]; ["srun"; "mf6"; "-p"] ].
  do 2 eexists.
  split; [rewrite (script_argv run Hifs); reflexivity|].
  repeat split.
  - exact Hdir.
  - intros base a b. rewrite Hdir. apply resolve_up2.
Qed.

Lemma batch_archives_three_files_witness :
  exists (before : list (list string)) (args : list string) (archive : string),
    run_script (fun _ => "2024-09-16T14-06:00") slurm_batch
    = Some (before ++ [args]) /\
    map program before = ["module"; "srun"] /\
    program args = "zip" /\
    zip_archive args = Some archive /\
    archive = "../../archive/1803_1804_001p_2024-09-16T14-06:00" /\
    zip_files args = ["ngwm.ims"; "mfsim.lst"; "ims.inner.csv"] /\
    dirname archive = [".."; ".."; "archive"] /\
    forall (base : list string) (a b : string),
      resolve (base ++ [a; b]) (dirname archive) = base ++ ["archive"].
Proof.
  apply (batch_archives_three_files (fun _ => "2024-09-16T14-06:00"));
    reflexivity.
Defined.

(** C6. The script declares a job name, the node and task counts, a
    time limit, an output path and an address for failure mail, each
    once; its first command loads the module [modflow/6.6.0.dev0], the
    only module it loads, and the simulator runs after it. *)
Theorem batch_declarations_and_module :
  option_values "job-name" slurm_batch = ["1803_1804"] /\
  option_values "nodes" slurm_batch = ["1"] /\
  option_values "ntasks" slurm_batch = ["1"] /\
  option_values "time" slurm_batch = ["00:10:00"] /\
  option_values "output" slurm_batch = ["slurm-%j.out"] /\
  option_values "mail-type" slurm_batch = ["FAIL"] /\
  option_values "mail-user" slurm_batch = ["jdhughes@usgs.gov"] /\
  commands slurm_batch
  = [ "module load modflow/6.6.0.dev0"; "srun mf6 -p";
      "zip ../../archive/1803_1804_001p_$(date -Ihours) ngwm.ims mfsim.lst ims.inner.csv" ] /\
  filter (prefix "module") (commands slurm_batch)
  = ["module load modflow/6.6.0.dev0"] /\
  words "module load modflow/6.6.0.dev0"
  = Some [[Lit "module"]; [Lit "load"]; [Lit "modflow/6.6.0.dev0"]].
Proof. repeat split. Qed.

(** C7. Mail is requested for the event [FAIL] only and for one
    address; a job that needs more than the declared 600 seconds ends
    in [TIMEOUT] and the scheduler sends that address the failure mail,
    while a job that completes sends none; the commands of the script
    are plain: none tests, retries or recovers from the outcome of
    another. *)
Theorem batch_failure_mail_only (needed : nat) (exit_ok : bool) :
  (600 < needed)%nat ->
  mail_types slurm_batch = ["FAIL"] /\
  mail_users slurm_batch = ["jdhughes@usgs.gov"] /\
  map time_limit_seconds (option_values "time" slurm_batch) = [Some 600] /\
  final_state 600 needed exit_ok = TIMEOUT /\
  notifications slurm_batch (final_state 600 needed exit_ok)
  = [("FAIL", "jdhughes@usgs.gov")] /\
  notifications slurm_batch COMPLETED = [] /\
  forallb plain_command (commands slurm_batch) = true.
Proof.
  intros H.
  assert (E : final_state 600 needed exit_ok = TIMEOUT).
  { unfold final_state. apply Nat.ltb_lt in H. now rewrite H. }
  rewrite E. repeat split.
Qed.

Lemma batch_failure_mail_only_witness :
  mail_types slurm_batch = ["FAIL"] /\
  mail_users slurm_batch = ["jdhughes@usgs.gov"] /\
  map time_limit_seconds (option_values "time" slurm_batch) = [Some 600] /\
  final_state 600 601 true = TIMEOUT /\
  notifications slurm_batch (final_state 600 601 true)
  = [("FAIL", "jdhughes@usgs.gov")] /\
  notifications slurm_batch COMPLETED = [] /\
  forallb plain_command (commands slurm_batch) = true.
Proof. apply (batch_failure_mail_only 601 true). lia. Defined.

End BatchFacts.

(** ** More on [hgrad]: failure, linearity, symmetries *)

Section HgradMore.

Import Xt3d.
Local Open Scope R_scope.

Lemma hgrad_zero_det (k k22 angle1 qx qy : R) :
  det_of k k22 angle1 = 0 -> hgrad k k22 angle1 qx qy = None.
Proof.
  intros Hdet. unfold hgrad.
  change (angle1 * PI / 180) with (angle_of angle1).
  fold (kxx_of k k22 angle1) (kyy_of k k22 angle1) (kxy_of k k22 angle1).
  change (kxx_of k k22 angle1 * kyy_of k k22 angle1
          - kxy_of k k22 angle1 * kxy_of k k22 angle1)
    with (det_of k k22 angle1).
  rewrite Hdet, div_none. reflexivity.
Qed.

(** [hgrad] reads its first three arguments through the tensor only. *)
Lemma hgrad_tensor_ext (k k22 a k' k22' a' qx qy : R) :
  kxx_of k k22 a = kxx_of k' k22' a' ->
  kyy_of k k22 a = kyy_of k' k22' a' ->
  kxy_of k k22 a = kxy_of k' k22' a' ->
  hgrad k k22 a qx qy = hgrad k' k22' a' qx qy.
Proof.
  intros Exx Eyy Exy.
  assert (Edet : det_of k k22 a = det_of k' k22' a')
    by (unfold det_of; cbv zeta; now rewrite Exx, Eyy, Exy).
  destruct (Req_dec_T (det_of k k22 a) 0) as [Z | NZ].
  - rewrite (hgrad_zero_det _ _ _ _ _ Z).
    rewrite Edet in Z. now rewrite (hgrad_zero_det _ _ _ _ _ Z).
  - rewrite (hgrad_value _ _ _ _ _ NZ).
    rewrite Edet in NZ. rewrite (hgrad_value _ _ _ _ _ NZ).
    now rewrite Exx, Eyy, Exy, Edet.
Qed.

(** X1. Over exact real arithmetic, the determinant [hgrad] divides by
    is zero, and [hgrad] raises [ZeroDivisionError], exactly when one
    of the two principal conductivities is zero; for every other pair,
    negative values included, it returns. *)
Theorem hgrad_fails_iff (k k22 angle1 qx qy : R) :
  hgrad k k22 angle1 qx qy = None <-> k * k22 = 0.
Proof.
  rewrite <- (det_of_eq k k22 angle1).
  destruct (Req_dec_T (det_of k k22 angle1) 0) as [Z | NZ].
  - split; [intros _; exact Z | intros _; now apply hgrad_zero_det].
  - rewrite (hgrad_value _ _ _ _ _ NZ). split; [discriminate | contradiction].
Qed.

(** X2. Over exact real arithmetic, the head gradient is linear in the
    flux. *)
Theorem hgrad_linear (k k22 angle1 c qx1 qy1 qx2 qy2 : R) :
  k * k22 <> 0 ->
  exists g1 g2 : R * R,
    hgrad k k22 angle1 qx1 qy1 = Some g1 /\
    hgrad k k22 angle1 qx2 qy2 = Some g2 /\
    hgrad k k22 angle1 (c * qx1 + qx2) (c * qy1 + qy2)
    = Some (c * fst g1 + fst g2, c * snd g1 + snd g2).
Proof.
  intros H. rewrite <- (det_of_eq k k22 angle1) in H.
  rewrite !(hgrad_value _ _ _ _ _ H).
  do 2 eexists. split; [reflexivity|]. split; [reflexivity|].
  cbn [fst snd]. f_equal. f_equal; field; exact H.
Qed.

Lemma hgrad_linear_witness :
  exists g1 g2 : R * R,
    hgrad 1 (1 / 10) 45 (1 / 600) 0 = Some g1 /\
    hgrad 1 (1 / 10) 45 0 1 = Some g2 /\
    hgrad 1 (1 / 10) 45 (3 * (1 / 600) + 0) (3 * 0 + 1)
    = Some (3 * fst g1 + fst g2, 3 * snd g1 + snd g2).
Proof. apply hgrad_linear. lra. Defined.

Lemma angle_of_0 : angle_of 0 = 0.
Proof. unfold angle_of. lra. Qed.

Lemma angle_of_90 : angle_of 90 = PI / 2.
Proof. unfold angle_of. lra. Qed.

Lemma angle_of_45 : angle_of 45 = PI / 4.
Proof. unfold angle_of. lra. Qed.

Lemma angle_of_plus_180 (a : R) : angle_of (a + 180) = angle_of a + PI.
Proof. unfold angle_of. lra. Qed.

Lemma angle_of_plus_90 (a : R) : angle_of (a + 90) = angle_of a + PI / 2.
Proof. unfold angle_of. lra. Qed.

Lemma angle_of_opp (a : R) : angle_of (- a) = - angle_of a.
Proof. unfold angle_of. lra. Qed.

(** X3. Over exact real arithmetic, when the principal directions are
    the coordinate axes the two components separate: at ANGLE1 = 0 the
    gradient is (- qx / K, - qy / K22), at ANGLE1 = 90 it is (- qx /
    K22, - qy / K). *)
Theorem hgrad_axes (k k22 qx qy : R) :
  k <> 0 -> k22 <> 0 ->
  hgrad k k22 0 qx qy = Some (- qx / k, - qy / k22) /\
  hgrad k k22 90 qx qy = Some (- qx / k22, - qy / k).
Proof.
  intros Hk Hk22.
  assert (Hdet : forall a, det_of k k22 a <> 0).
  { intros a. rewrite det_of_eq. now apply Rmult_integral_contrapositive_currified. }
  split.
  - rewrite (hgrad_value _ _ _ _ _ (Hdet 0)). rewrite det_of_eq.
    unfold kxx_of, kyy_of, kxy_of. rewrite angle_of_0, sin_0, cos_0.
    f_equal. f_equal; field; now split.
  - rewrite (hgrad_value _ _ _ _ _ (Hdet 90)). rewrite det_of_eq.
    unfold kxx_of, kyy_of, kxy_of. rewrite angle_of_90, sin_PI2, cos_PI2.
    f_equal. f_equal; field; now split.
Qed.

Lemma hgrad_axes_witness :
  hgrad 1 (1 / 10) 0 (1 / 600) 2 = Some (- (1 / 600) / 1, - 2 / (1 / 10)) /\
  hgrad 1 (1 / 10) 90 (1 / 600) 2 = Some (- (1 / 600) / (1 / 10), - 2 / 1).
Proof. apply hgrad_axes; lra. Defined.

(** X4. Over exact real arithmetic, turning the principal directions
    by half a turn changes nothing: [hgrad] has period 180 in ANGLE1. *)
Theorem hgrad_period_180 (k k22 angle1 qx qy : R) :
  hgrad k k22 (angle1 + 180) qx qy = hgrad k k22 angle1 qx qy.
Proof.
  apply hgrad_tensor_ext; unfold kxx_of, kyy_of, kxy_of;
    rewrite angle_of_plus_180, neg_sin, neg_cos; ring.
Qed.

(** X5. Over exact real arithmetic, exchanging K and K22 and turning
    the principal directions by a quarter turn describes the same
    tensor and gives the same gradient. *)
Theorem hgrad_swap_quarter_turn (k k22 angle1 qx qy : R) :
  hgrad k22 k (angle1 + 90) qx qy = hgrad k k22 angle1 qx qy.
Proof.
  apply hgrad_tensor_ext; unfold kxx_of, kyy_of, kxy_of;
    rewrite angle_of_plus_90, sin_plus, cos_plus, sin_PI2, cos_PI2; ring.
Qed.

Lemma sin2_PI4 : sin (PI / 4) * sin (PI / 4) = 1 / 2.
Proof.
  rewrite sin_PI4.
  assert (H : sqrt 2 * sqrt 2 = 2) by (apply sqrt_sqrt; lra).
  assert (N : sqrt 2 <> 0) by (intros E; rewrite E in H; lra).
  field_simplify; [| exact N]. replace (sqrt 2 ^ 2) with 2 by (rewrite <- H at 1; ring).
  field.
Qed.

Lemma cos2_PI4 : cos (PI / 4) * cos (PI / 4) = 1 / 2.
Proof.
  generalize (sin2_cos2 (PI / 4)). unfold Rsqr. rewrite sin2_PI4. lra.
Qed.

Lemma sincos_PI4 : sin (PI / 4) * cos (PI / 4) = 1 / 2.
Proof. rewrite cos_PI4, <- sin_PI4. exact sin2_PI4. Qed.

(** X6. Over exact real arithmetic, at ANGLE1 = 45 the tensor has Kxx
    = Kyy = (K + K22) / 2 and Kxy = (K - K22) / 2, and the gradient
    has the closed form below; for a flux along x it has a y component
    as soon as K and K22 differ. *)
Theorem hgrad_45 (k k22 qx qy : R) :
  k * k22 <> 0 ->
  hgrad k k22 45 qx qy
  = Some (- ((k + k22) * qx - (k - k22) * qy) / (2 * k * k22),
          - ((k + k22) * qy - (k - k22) * qx) / (2 * k * k22)).
Proof.
  intros H.
  assert (Hdet : det_of k k22 45 <> 0) by now rewrite det_of_eq.
  rewrite (hgrad_value _ _ _ _ _ Hdet), det_of_eq.
  assert (Exx : kxx_of k k22 45 = (k + k22) / 2).
  { unfold kxx_of. rewrite angle_of_45. cbn [pow]. rewrite !Rmult_1_r.
    rewrite sin2_PI4, cos2_PI4. field. }
  assert (Eyy : kyy_of k k22 45 = (k + k22) / 2).
  { unfold kyy_of. rewrite angle_of_45. cbn [pow]. rewrite !Rmult_1_r.
    rewrite sin2_PI4, cos2_PI4. field. }
  assert (Exy : kxy_of k k22 45 = (k - k22) / 2).
  { unfold kxy_of. rewrite angle_of_45, Rmult_assoc, sincos_PI4. field. }
  assert (Hk : k <> 0) by (intros E; apply H; rewrite E; ring).
  assert (Hk22 : k22 <> 0) by (intros E; apply H; rewrite E; ring).
  rewrite Exx, Eyy, Exy. f_equal. f_equal; field; split; assumption.
Qed.

Lemma hgrad_45_witness :
  hgrad 1 (1 / 10) 45 (1 / 600) 0
  = Some (- ((1 + 1 / 10) * (1 / 600) - (1 - 1 / 10) * 0) / (2 * 1 * (1 / 10)),
          - ((1 + 1 / 10) * 0 - (1 - 1 / 10) * (1 / 600)) / (2 * 1 * (1 / 10))).
Proof. apply hgrad_45. lra. Defined.

(** X7. Over exact real arithmetic, for a flux along x the head
    gradient is along x as well only when the medium is isotropic, the
    principal directions are the coordinate axes, or there is no flux. *)
Theorem hgrad_aligned_iff (k k22 angle1 qx : R) :
  0 < k -> 0 < k22 ->
  exists gx gy : R,
    hgrad k k22 angle1 qx 0 = Some (gx, gy) /\
    (gy = 0 <->
     k = k22 \/ sin (angle_of angle1) = 0 \/ cos (angle_of angle1) = 0 \/ qx = 0).
Proof.
  intros Hk Hk22.
  pose proof (det_of_nonzero k k22 angle1 Hk Hk22) as Hdet.
  rewrite (hgrad_value _ _ _ _ _ Hdet). do 2 eexists. split; [reflexivity|].
  rewrite det_of_eq in *. unfold kxy_of.
  set (s := sin (angle_of angle1)). set (c := cos (angle_of angle1)).
  replace (- (- ((k - k22) * s * c) / (k * k22)) * qx - kxx_of k k22 angle1 / (k * k22) * 0)
    with ((k - k22) * (s * (c * qx)) / (k * k22)) by (field; lra).
  split.
  - intros E.
    assert (E' : (k - k22) * (s * (c * qx)) = 0).
    { apply (Rmult_eq_reg_r (/ (k * k22))); [| now apply Rinv_neq_0_compat].
      rewrite Rmult_0_l. exact E. }
    apply Rmult_integral in E' as [E' | E']; [left; lra|].
    apply Rmult_integral in E' as [E' | E']; [right; left; exact E'|].
    apply Rmult_integral in E' as [E' | E']; [right; right; left; exact E'|].
    right; right; right; exact E'.
  - intros [E | [E | [E | E]]]; rewrite ?E; subst; unfold Rdiv;
      try replace (k22 - k22) with 0 by ring; ring.
Qed.

Lemma hgrad_aligned_iff_witness :
  exists gx gy : R,
    hgrad 1 (1 / 10) 45 (1 / 600) 0 = Some (gx, gy) /\
    (gy = 0 <->
     1 = 1 / 10 \/ sin (angle_of 45) = 0 \/ cos (angle_of 45) = 0 \/ 1 / 600 = 0).
Proof. apply hgrad_aligned_iff; lra. Defined.

(** X8. Over exact real arithmetic, with positive conductivities the
    head falls along the flow: the gradient [hgrad] returns makes a
    negative scalar product with every flux that is not zero. *)
Theorem hgrad_down_gradient (k k22 angle1 qx qy : R) :
  0 < k -> 0 < k22 -> qx <> 0 \/ qy <> 0 ->
  exists gx gy : R,
    hgrad k k22 angle1 qx qy = Some (gx, gy) /\
    qx * gx + qy * gy < 0.
Proof.
  intros Hk Hk22 Hq.
  pose proof (det_of_nonzero k k22 angle1 Hk Hk22) as Hdet.
  rewrite (hgrad_value _ _ _ _ _ Hdet). do 2 eexists. split; [reflexivity|].
  rewrite det_of_eq in *. unfold kxx_of, kyy_of, kxy_of. cbn [pow].
  generalize (sin2_cos2 (angle_of angle1)). unfold Rsqr.
  set (s := sin (angle_of angle1)). set (c := cos (angle_of angle1)).
  intros Hsc. rewrite !Rmult_1_r.
  set (u := s * qx - c * qy). set (v := c * qx + s * qy).
  replace (qx * _ + qy * _) with (- (k * (u * u) + k22 * (v * v)) / (k * k22))
    by (unfold u, v; field; lra).
  assert (Huv : u * u + v * v = qx * qx + qy * qy).
  { unfold u, v.
    replace (qx * qx + qy * qy) with ((s * s + c * c) * (qx * qx + qy * qy))
      by (rewrite Hsc; ring).
    ring. }
  assert (Hq2 : 0 < qx * qx + qy * qy).
  { destruct Hq as [Hq | Hq].
    - pose proof (Rsqr_pos_lt qx Hq) as P. unfold Rsqr in P.
      pose proof (Rle_0_sqr qy) as Q. unfold Rsqr in Q. lra.
    - pose proof (Rsqr_pos_lt qy Hq) as P. unfold Rsqr in P.
      pose proof (Rle_0_sqr qx) as Q. unfold Rsqr in Q. lra. }
  assert (HN : 0 < k * (u * u) + k22 * (v * v)).
  { pose proof (Rle_0_sqr u) as Pu. pose proof (Rle_0_sqr v) as Pv.
    unfold Rsqr in Pu, Pv.
    destruct (Rle_lt_or_eq_dec _ _ Pu) as [Lu | Eu].
    - pose proof (Rmult_lt_0_compat _ _ Hk Lu).
      pose proof (Rmult_le_pos _ _ (Rlt_le _ _ Hk22) Pv). lra.
    - assert (Lv : 0 < v * v) by lra.
      pose proof (Rmult_lt_0_compat _ _ Hk22 Lv).
      pose proof (Rmult_le_pos _ _ (Rlt_le _ _ Hk) Pu). lra. }
  assert (HD : 0 < k * k22) by now apply Rmult_lt_0_compat.
  unfold Rdiv. rewrite Ropp_mult_distr_l_reverse.
  apply Ropp_lt_gt_0_contravar. apply Rmult_gt_0_compat; [exact HN|].
  now apply Rinv_0_lt_compat.
Qed.

Lemma hgrad_down_gradient_witness :
  exists gx gy : R,
    hgrad 1 (1 / 10) 45 (1 / 600) 0 = Some (gx, gy) /\
    (1 / 600) * gx + 0 * gy < 0.
Proof. apply hgrad_down_gradient; [lra | lra | left; lra]. Defined.

(** X9. Over exact real arithmetic, [hgrad] undoes Darcy's Law: given
    the flux that a head gradient drives through the tensor, it
    returns that head gradient, for every pair of non-zero principal
    conductivities. *)
Theorem hgrad_inverts_darcy (k k22 angle1 gx gy : R) :
  k * k22 <> 0 ->
  hgrad k k22 angle1
    (- (kxx_of k k22 angle1 * gx + kxy_of k k22 angle1 * gy))
    (- (kxy_of k k22 angle1 * gx + kyy_of k k22 angle1 * gy))
  = Some (gx, gy).
Proof.
  intros H.
  assert (Hdet : det_of k k22 angle1 <> 0) by now rewrite det_of_eq.
  rewrite (hgrad_value _ _ _ _ _ Hdet).
  unfold det_of in *; cbv zeta in *.
  destruct (cramer_unique _ _ _ _ _ gx gy Hdet eq_refl eq_refl) as [Ex Ey].
  now rewrite <- Ex, <- Ey.
Qed.

Lemma hgrad_inverts_darcy_witness :
  hgrad 1 (1 / 10) 45
    (- (kxx_of 1 (1 / 10) 45 * 2 + kxy_of 1 (1 / 10) 45 * 3))
    (- (kxy_of 1 (1 / 10) 45 * 2 + kyy_of 1 (1 / 10) 45 * 3))
  = Some (2, 3).
Proof. apply hgrad_inverts_darcy. lra. Defined.

End HgradMore.

(** ** More on [add_chds], [build_sim] and [plot_results] *)

Section ChdMore.

Import Xt3d.
Local Open Scope R_scope.

Variable GridProps : Type.

(** X10. [build_sim], [add_chds] and the analytic head of [plot_results]
    raise [TypeError] under one and the same condition, [hgradx] given
    and [hgrady] left out; when [hgradx] is left out, [hgrady] is
    ignored. *)
Theorem gradient_arguments (gridprops : GridProps) (xt3doptions : option string)
    (gwf : ModflowGwf GridProps) (hgradx hgrady : option R) :
  (build_sim gridprops xt3doptions hgradx hgrady = None
   <-> hgradx <> None /\ hgrady = None) /\
  (add_chds gwf hgradx hgrady = None <-> hgradx <> None /\ hgrady = None) /\
  (heada hgradx hgrady = None <-> hgradx <> None /\ hgrady = None) /\
  build_sim gridprops xt3doptions None hgrady
  = build_sim gridprops xt3doptions None None /\
  add_chds gwf None hgrady = add_chds gwf None None.
Proof.
  destruct hgradx as [gx|], hgrady as [gy|]; cbn;
    repeat split; try discriminate; try reflexivity;
    try (intros [H1 H2]; try discriminate; now elim H1).
Qed.

(** X11. Over exact real arithmetic, in the anisotropic branch the
    prescribed heads carry the gradient across the domain: on every
    row the head on the right side is the head on the left side plus
    600 * hgradx, on every column the head on the top side is the head
    on the bottom side plus 600 * hgrady, and the last cell of the
    left side, cell 33 in the lower left corner, has head 1. *)
Theorem add_chds_heads_span (hgradx hgrady : R) :
  exists left right top bottom : Package GridProps,
    chd_packages GridProps (Some hgradx) (Some hgrady)
    = Some [left; right; top; bottom] /\
    Forall2 (fun l r => snd r - snd l = 600 * hgradx)
            (chd_records left) (chd_records right) /\
    Forall2 (fun b t => snd t - snd b = 600 * hgrady)
            (chd_records bottom) (chd_records top) /\
    exists head : R,
      last (chd_records left) (0%Z, 0%Z, 0) = (0%Z, 33%Z, head) /\ head = 1.
Proof.
  do 4 eexists. split; [reflexivity|].
  split; [| split].
  - cbn. repeat constructor; cbn [snd]; ring.
  - cbn. repeat constructor; cbn [snd]; ring.
  - eexists. split; [reflexivity|]. cbn. ring.
Qed.

(** X12. Over exact real arithmetic, the two branches agree where they
    overlap.  For an isotropic medium of conductivity K and the flux K
    / 600 along x, the gradient [hgrad] returns makes the anisotropic
    branch of [add_chds] prescribe, on the left and right sides, the
    heads of the base branch, and makes the analytic head of
    [plot_results] the one of the base case. *)
Theorem isotropic_gradient_gives_base_case (k angle1 : R) :
  0 < k ->
  exists (hgradx hgrady : R) (left right left' right' top bottom : Package GridProps)
         (f f' : R -> R -> R),
    hgrad k k angle1 (k / 600) 0 = Some (hgradx, hgrady) /\
    chd_packages GridProps None None = Some [left; right] /\
    chd_packages GridProps (Some hgradx) (Some hgrady)
    = Some [left'; right'; top; bottom] /\
    chd_records left' = chd_records left /\
    chd_records right' = chd_records right /\
    heada None None = Some f /\
    heada (Some hgradx) (Some hgrady) = Some f' /\
    forall x y, f' x y = f x y.
Proof.
  intros Hk.
  assert (Hk0 : k <> 0) by lra.
  rewrite (hgrad_value _ _ _ _ _ (det_of_nonzero k k angle1 Hk Hk)).
  rewrite det_of_eq, kyy_iso, kxx_iso, kxy_iso.
  do 10 eexists.
  split; [reflexivity|]. split; [reflexivity|]. split; [reflexivity|].
  split; [| split]; [| | split; [reflexivity | split; [reflexivity|]]].
  - cbn. repeat (f_equal; try (field; exact Hk0)).
  - cbn. repeat (f_equal; try (field; exact Hk0)).
  - intros x y. cbv beta zeta. field. exact Hk0.
Qed.

(** X13. The coordinates hardwired in [add_chds] are the centres of the
    cells of the outer grid: column 0 for the left side, column 6 for the
    right side, row 0 for the top side and row 6 for the bottom side,
    each with the row or column the loop counts. *)
Theorem add_chds_coordinates_are_centres :
  Forall (fun irow : nat =>
            left_xy (Z.of_nat irow)
            = (xcenter Outer.delr 0, ycenter Outer.delc irow) /\
            right_xy (Z.of_nat irow)
            = (xcenter Outer.delr 6, ycenter Outer.delc irow))
         (seq 0 (List.length left_cells)) /\
  Forall (fun jcol : nat =>
            top_xy (Z.of_nat jcol)
            = (xcenter Outer.delr (jcol + 1), ycenter Outer.delc 0) /\
            bottom_xy (Z.of_nat jcol)
            = (xcenter Outer.delr (jcol + 1), ycenter Outer.delc 6))
         (seq 0 (List.length top_cells)).
Proof.
  split; cbn [seq List.length left_cells top_cells];
    repeat (constructor;
            [split; lazy -[Rplus Rmult Rminus Rdiv Ropp Rinv IZR]; f_equal; lra|]);
    constructor.
Qed.

End ChdMore.

Section ChdMoreWitness.

Import Xt3d.
Local Open Scope R_scope.

Lemma isotropic_gradient_gives_base_case_witness :
  exists (hgradx hgrady : R) (left right left' right' top bottom : Package unit)
         (f f' : R -> R -> R),
    hgrad 1 1 30 (1 / 600) 0 = Some (hgradx, hgrady) /\
    chd_packages unit None None = Some [left; right] /\
    chd_packages unit (Some hgradx) (Some hgrady)
    = Some [left'; right'; top; bottom] /\
    chd_records left' = chd_records left /\
    chd_records right' = chd_records right /\
    heada None None = Some f /\
    heada (Some hgradx) (Some hgrady) = Some f' /\
    forall x y, f' x y = f x y.
Proof. apply (isotropic_gradient_gives_base_case unit 1 30). exact Rlt_0_1. Defined.

End ChdMoreWitness.

(** ** More on the notebook's workflow *)

Section WorkflowMore.

Import Xt3d.
Local Open Scope R_scope.

Variable GridProps : Type.
Variable gridlist_to_disv_gridprops : list StructuredGrid -> GridProps.

(** X14. The refined grid has the place and the size of the block the
    outer grid leaves inactive: [idomain] of [sg1] is 0 on rows 2 to 4 of
    columns 2 to 4 and 1 elsewhere, the offsets of [sg2] are the widths
    of the two columns left of the block and the heights of the two rows
    below it, and [sg2] is as wide and as high as the block. *)
Theorem inner_grid_fills_inactive_block :
  exists (sg1 sg2 : StructuredGrid) (gridprops : GridProps)
         (log : list (Event GridProps)) (xoff yoff : R),
    build_grids gridlist_to_disv_gridprops [] = Some (sg1, sg2, gridprops, log) /\
    Forall (fun i : nat =>
              Forall (fun j : nat =>
                        nth j (nth i (nth 0 (sg_idomain sg1) []) []) 1
                        = if ((2 <=? i)%nat && (i <? 5)%nat
                              && (2 <=? j)%nat && (j <? 5)%nat)%bool
                          then 0 else 1)
                     (seq 0 7))
           (seq 0 7) /\
    sg_xoff sg2 = Some xoff /\
    sg_yoff sg2 = Some yoff /\
    xoff = total (slice 0 2 (sg_delr sg1)) /\
    yoff = total (slice 5 7 (sg_delc sg1)) /\
    total (sg_delr sg2) = total (slice 2 5 (sg_delr sg1)) /\
    total (sg_delc sg2) = total (slice 2 5 (sg_delc sg1)).
Proof.
  do 6 eexists. split; [reflexivity|].
  cbn [sg_idomain sg_xoff sg_yoff sg_delr sg_delc].
  split.
  { cbn [seq]. repeat constructor. }
  split; [reflexivity|]. split; [reflexivity|].
  repeat split; lazy -[Rplus Rmult Rminus Rdiv Ropp Rinv IZR]; lra.
Qed.

(** X15. Every run of the simulator finds on disk the simulation the
    notebook holds at that moment, exercise D included, where K22 and
    ANGLE1 are set after [write_simulation] and reach the disk by
    [npf.write].  The three runs use XT3D options "", "xt3d" and
    "xt3d", the last one with K22 = 0.1 * K and ANGLE1 = 45. *)
Theorem notebook_runs_what_it_wrote :
  exists (G : Globals GridProps) (log : list (Event GridProps))
         (sim_B : MFSimulation GridProps),
    notebook gridlist_to_disv_gridprops [] = Some (G, log) /\
    map snd (runs_with_disk None log) = [sim_B; sim_base G; sim G] /\
    Forall (fun r => fst r = Some (snd r)) (runs_with_disk None log) /\
    map (fun r => npf_of (snd r)) (runs_with_disk None log)
    = [ Some (mkNpf icelltype k11 true (Some ""%string) None None);
        Some (mkNpf icelltype k11 true (Some "xt3d"%string) None None);
        Some (mkNpf icelltype k11 true (Some "xt3d"%string)
                (Some (0.1 * k11)) (Some 45)) ].
Proof.
  assert (Hdet : det_of k11 (0.1 * k11) 45 <> 0)
    by (apply det_of_nonzero; unfold k11; lra).
  pose proof (hgrad_value k11 (0.1 * k11) 45 (1 / 600) 0 Hdet) as E.
  unfold notebook, exercise_D. cbv zeta. rewrite E.
  do 3 eexists. split; [reflexivity|].
  split; [reflexivity|].
  split; [repeat constructor | reflexivity].
Qed.

End WorkflowMore.

(** ** More on the batch script *)

Section BatchMore.

Import SlurmBatch.
Local Open Scope string_scope.
Local Open Scope list_scope.

(** X16. The script does not turn [errexit] on, so it runs its three
    commands whatever status each of them returns: the archive is made
    also after a failed simulator run, and the script exits with the
    status of [zip], not with the simulator's. *)
Theorem script_ignores_run_status (run : string -> string)
    (status : list string -> nat) :
  has is_ifs (run "date -Ihours") = false ->
  starts_with_errexit slurm_batch = false /\
  exec_script run status slurm_batch
  = Some ([ ["module"; "load"; "modflow/6.6.0.dev0"];
            ["srun"; "mf6"; "-p"];
            ["zip";
             ("../../archive/1803_1804_001p_" ++ run "date -Ihours")%string;
             "ngwm.ims"; "mfsim.lst"; "ims.inner.csv"] ],
          status ["zip";
                  ("../../archive/1803_1804_001p_" ++ run "date -Ihours")%string;
                  "ngwm.ims"; "mfsim.lst"; "ims.inner.csv"]).
Proof.
  intros H. split; [reflexivity|].
  unfold exec_script. rewrite (script_argv run H).
  change (starts_with_errexit slurm_batch) with false.
  cbn [exec_from sets_errexit andb]. reflexivity.
Qed.

Lemma script_ignores_run_status_witness :
  starts_with_errexit slurm_batch = false /\
  exec_script (fun _ => "2024-09-16T14-06:00")
    (fun args => if String.eqb (program args) "srun" then 1 else 0)
    slurm_batch
  = Some ([ ["module"; "load"; "modflow/6.6.0.dev0"];
            ["srun"; "mf6"; "-p"];
            ["zip"; "../../archive/1803_1804_001p_2024-09-16T14-06:00";
             "ngwm.ims"; "mfsim.lst"; "ims.inner.csv"] ],
          0).
Proof.
  apply (script_ignores_run_status (fun _ => "2024-09-16T14-06:00")
           (fun args => if String.eqb (program args) "srun" then 1 else 0)).
  reflexivity.
Defined.

End BatchMore.
